(** * py-ninja: the device layer of [ninja/devices.py]

    A shallow embedding of [Device] and its subclasses ([Button], [RGBLED],
    [Relay], the sensors) and of the Python values they handle, followed by
    the properties of polling, change notification, record projection and
    the relay's command-then-verify loop.

    Methods are state transformers on (instance, world) that return a
    value or raise; the transport and the local clock are oracles whose
    replies the device layer does not decide. *)

From stdpp Require Import gmap strings list fin_maps pretty.
From Stdlib Require Import ZArith Ascii String Lia Floats.SpecFloat.

Set Warnings "-register-all".
Local Open Scope string_scope.
Local Open Scope Z_scope.
Local Open Scope list_scope.

(** ** Python values *)

(** [datetime.datetime], naive (no tzinfo), as its seven fields. *)
Record datetime := mkDatetime {
  year : Z; month : Z; day : Z;
  hour : Z; minute : Z; second : Z; microsecond : Z
}.

(** The values that reach the device layer: decoded JSON (None, booleans,
    integers, floats, strings, lists, objects) and the datetimes the layer
    creates itself.  A JSON object is a dict keyed by strings; a float is
    an IEEE-754 binary64 number, NaN and the infinities included. *)
Inductive pyval :=
| VNone
| VBool (b : bool)
| VInt (z : Z)
| VStr (s : string)
| VList (l : list pyval)
| VDict (d : gmap string pyval)
| VDatetime (t : datetime)
| VFloat (f : spec_float).

(** The exceptions the modelled code can raise. *)
Inductive exn :=
| KeyError (key : string)
| TypeError
| ValueError
| AttributeError (attr : string)
| OverflowError
| UnboundLocalError (var : string)
| Warning (msg : string).

Inductive result (A : Type) :=
| Ok (a : A)
| Raise (e : exn).
Arguments Ok {A} a.
Arguments Raise {A} e.

(** ** Builtins *)

Definition datetime_eqb (a b : datetime) : bool :=
  (year a =? year b) && (month a =? month b) && (day a =? day b) &&
  (hour a =? hour b) && (minute a =? minute b) && (second a =? second b) &&
  (microsecond a =? microsecond b).

(** *** Floats

    Python's float is the binary64 format: 53 bits of mantissa, infinities
    at exponent 1024.  A finite float [S754_finite s m e] is the number
    (-1)^s * m * 2^e. *)
Definition prec : Z := 53.
Definition emax : Z := 1024.

(** [float(z)] for an int: the nearest float. *)
Definition float_of_Z (z : Z) : spec_float :=
  binary_normalize prec emax z 0 false.

(** [f == z] for a float and an int: Python compares the two numbers
    exactly; NaN and the infinities equal no int. *)
Definition float_eq_Z (f : spec_float) (z : Z) : bool :=
  match f with
  | S754_zero _ => z =? 0
  | S754_finite s m e =>
      let v := cond_Zopp s (Zpos m) in
      if 0 <=? e then v * 2 ^ e =? z else v =? z * 2 ^ (- e)
  | _ => false
  end.

(** [f == g] for two floats: equal numbers, so that 0.0 == -0.0, and NaN
    equals nothing, itself included. *)
Definition float_eqb (f g : spec_float) : bool :=
  match f, g with
  | S754_zero _, S754_zero _ => true
  | S754_infinity s, S754_infinity t => Bool.eqb s t
  | S754_finite s m e, S754_finite t n k =>
      let lo := Z.min e k in
      cond_Zopp s (Zpos m) * 2 ^ (e - lo) =? cond_Zopp t (Zpos n) * 2 ^ (k - lo)
  | _, _ => false
  end.

(** The integer part of a float, towards zero and towards minus infinity;
    NaN and the infinities have none. *)
Definition float_trunc (f : spec_float) : option Z :=
  match f with
  | S754_zero _ => Some 0
  | S754_finite s m e =>
      Some (cond_Zopp s (if 0 <=? e then Zpos m * 2 ^ e else Zpos m / 2 ^ (- e)))
  | _ => None
  end.

Definition float_floor (f : spec_float) : option Z :=
  match f with
  | S754_zero _ => Some 0
  | S754_finite s m e =>
      let v := cond_Zopp s (Zpos m) in
      Some (if 0 <=? e then v * 2 ^ e else v / 2 ^ (- e))
  | _ => None
  end.

(** [x >= 0.0]. *)
Definition float_nonneg (f : spec_float) : bool :=
  match f with
  | S754_zero _ => true
  | S754_finite s _ _ => negb s
  | S754_infinity s => negb s
  | S754_nan => false
  end.

(** [bool] is a subclass of [int]: [True] counts as 1 and [False] as 0. *)
Definition num_of (v : pyval) : option Z :=
  match v with
  | VBool b => Some (Z.b2z b)
  | VInt z => Some z
  | _ => None
  end.

(** Python's [a == b] on these values. *)
Fixpoint py_eq (a b : pyval) {struct a} : bool :=
  match a, b with
  | VNone, VNone => true
  | (VBool _ | VInt _), (VBool _ | VInt _) =>
      match num_of a, num_of b with
      | Some x, Some y => x =? y
      | _, _ => false
      end
  | VFloat f, VFloat g => float_eqb f g
  | VFloat f, (VBool _ | VInt _) =>
      match num_of b with
      | Some y => float_eq_Z f y
      | None => false
      end
  | (VBool _ | VInt _), VFloat g =>
      match num_of a with
      | Some x => float_eq_Z g x
      | None => false
      end
  | VStr s, VStr t => String.eqb s t
  | VList xs, VList ys =>
      (fix go (xs ys : list pyval) : bool :=
         match xs, ys with
         | [], [] => true
         | x :: xs', y :: ys' => py_eq x y && go xs' ys'
         | _, _ => false
         end) xs ys
  | VDict d, VDict e =>
      Nat.eqb (size d) (size e) &&
      map_fold (fun k x acc =>
                  match e !! k with
                  | Some y => py_eq x y
                  | None => false
                  end && acc) true d
  | VDatetime s, VDatetime t => datetime_eqb s t
  | _, _ => false
  end.

(** Python's [a != b]; on these values it is the negation of [==], so
    that NaN != NaN. *)
Definition py_ne (a b : pyval) : bool := negb (py_eq a b).

(** [copy.deepcopy]: values are immutable here, so a copy is the value. *)
Definition deepcopy (v : pyval) : pyval := v.

(** [v[k]] for a string key. *)
Definition py_getitem (v : pyval) (k : string) : result pyval :=
  match v with
  | VDict d =>
      match d !! k with
      | Some x => Ok x
      | None => Raise (KeyError k)
      end
  | _ => Raise TypeError
  end.

(** [v.get(k, default)]. *)
Definition py_get (v : pyval) (k : string) (dflt : pyval) : result pyval :=
  match v with
  | VDict d => Ok (default dflt (d !! k))
  | _ => Raise (AttributeError "get")
  end.

(** [int(s)] for a string, as Python 2 reads a base-10 literal: optional
    surrounding whitespace, an optional sign, then at least one digit. *)
Definition isspace (c : ascii) : bool :=
  let n := Z.of_nat (nat_of_ascii c) in
  (n =? 32) || ((9 <=? n) && (n <=? 13)).

Definition digit (c : ascii) : option Z :=
  let n := Z.of_nat (nat_of_ascii c) in
  if (48 <=? n) && (n <=? 57) then Some (n - 48) else None.

Fixpoint lstrip (s : string) : string :=
  match s with
  | String c r => if isspace c then lstrip r else s
  | EmptyString => s
  end.

Fixpoint digits (s : string) (acc : Z) : option Z :=
  match s with
  | EmptyString => Some acc
  | String c r =>
      match digit c with
      | Some d => digits r (10 * acc + d)
      | None => match lstrip s with EmptyString => Some acc | _ => None end
      end
  end.

Definition int_of_string (s : string) : result Z :=
  let s1 := lstrip s in
  let '(neg, s2) :=
    match s1 with
    | String "-"%char r => (true, lstrip r)
    | String "+"%char r => (false, lstrip r)
    | _ => (false, s1)
    end in
  match s2 with
  | String c r =>
      match digit c with
      | Some d =>
          match digits r d with
          | Some n => Ok (if neg then - n else n)
          | None => Raise ValueError
          end
      | None => Raise ValueError
      end
  | EmptyString => Raise ValueError
  end.

(** [int(v)]; a float is cut towards zero, NaN is a ValueError and an
    infinity an OverflowError. *)
Definition py_int (v : pyval) : result Z :=
  match v with
  | VBool b => Ok (Z.b2z b)
  | VInt z => Ok z
  | VStr s => int_of_string s
  | VFloat f =>
      match float_trunc f with
      | Some z => Ok z
      | None =>
          match f with
          | S754_nan => Raise ValueError
          | _ => Raise OverflowError
          end
      end
  | _ => Raise TypeError
  end.

(** [a is b] for two freshly produced ints: CPython shares the objects of
    the small integers -5..256 and no others. *)
Definition py_is_int (a b : Z) : bool :=
  (a =? b) && (-5 <=? a) && (a <=? 256).

(** [str(n)] for an int. *)
Definition py_str_int (n : Z) : string := pretty n.

(** [v / 1000] in Python 2: floor division on ints, float division on
    floats. *)
Definition py_div_1000 (v : pyval) : result pyval :=
  match v with
  | VFloat f => Ok (VFloat (SFdiv prec emax f (float_of_Z 1000)))
  | _ =>
      match num_of v with
      | Some z => Ok (VInt (z / 1000))
      | None => Raise TypeError
      end
  end.

(** Days since 1970-01-01 to (year, month, day) in the proleptic Gregorian
    calendar. *)
Definition civil_from_days (days : Z) : Z * Z * Z :=
  let z := days + 719468 in
  let era := z / 146097 in
  let doe := z - era * 146097 in
  let yoe := (doe - doe / 1460 + doe / 36524 - doe / 146096) / 365 in
  let y := yoe + era * 400 in
  let doy := doe - (365 * yoe + yoe / 4 - yoe / 100) in
  let mp := (5 * doy + 2) / 153 in
  let d := doy - (153 * mp + 2) / 5 + 1 in
  let m := if mp <? 10 then mp + 3 else mp - 9 in
  (if m <=? 2 then y + 1 else y, m, d).

(** The datetime of [secs] seconds and [us] microseconds since the epoch,
    in UTC; a year outside 1..9999 or a microsecond outside 0..999999 is a
    ValueError. *)
Definition datetime_of (secs us : Z) : result datetime :=
  let '(y, m, d) := civil_from_days (secs / 86400) in
  let r := secs mod 86400 in
  if (1 <=? y) && (y <=? 9999) && (0 <=? us) && (us <? 1000000)
  then Ok (mkDatetime y m d (r / 3600) (r mod 3600 / 60) (r mod 60) us)
  else Raise ValueError.

(** [floor(x + 0.5)] for [x >= 0.0] and [ceil(x - 0.5)] otherwise, as an
    int. *)
Definition round_to_long (x : spec_float) : option Z :=
  let half := SFdiv prec emax (float_of_Z 1) (float_of_Z 2) in
  if float_nonneg x
  then float_floor (SFadd prec emax x half)
  else match float_floor (SFopp (SFsub prec emax x half)) with
       | Some n => Some (- n)
       | None => None
       end.

(** A float timestamp as whole seconds and microseconds: the seconds are
    the integer part, the microseconds the rest times 1e6, rounded; a
    negative rest borrows a second, a rest that rounds to a full second
    carries one. *)
Definition float_seconds (f : spec_float) : option (Z * Z) :=
  match float_trunc f with
  | None => None
  | Some timet =>
      let fraction := SFsub prec emax f (float_of_Z timet) in
      match round_to_long (SFmul prec emax fraction (float_of_Z 1000000)) with
      | None => None
      | Some us =>
          let '(timet, us) :=
            if us <? 0 then (timet - 1, us + 1000000) else (timet, us) in
          let '(timet, us) :=
            if us =? 1000000 then (timet + 1, 0) else (timet, us) in
          Some (timet, us)
      end
  end.

(** [datetime.utcfromtimestamp(v)]: an int is taken as whole seconds (one
    too large for a float is an OverflowError), a float with its
    microseconds; NaN and the infinities are a ValueError. *)
Definition utcfromtimestamp (v : pyval) : result datetime :=
  match v with
  | VFloat f =>
      match float_seconds f with
      | Some (secs, us) => datetime_of secs us
      | None => Raise ValueError
      end
  | _ =>
      match num_of v with
      | Some z =>
          match float_of_Z z with
          | S754_infinity _ => Raise OverflowError
          | _ => datetime_of z 0
          end
      | None => Raise TypeError
      end
  end.

Fixpoint zeros (n : nat) : string :=
  match n with
  | O => ""
  | S k => String "0"%char (zeros k)
  end.

Definition zfill (width : nat) (z : Z) : string :=
  let s := pretty z in
  zeros (width - String.length s) +:+ s.

(** [t.isoformat()]: YYYY-MM-DDTHH:MM:SS, followed by .ffffff when the
    microsecond field is not zero. *)
Definition isoformat (t : datetime) : string :=
  zfill 4 (year t) +:+ "-" +:+ zfill 2 (month t) +:+ "-" +:+ zfill 2 (day t)
  +:+ "T" +:+ zfill 2 (hour t) +:+ ":" +:+ zfill 2 (minute t) +:+ ":"
  +:+ zfill 2 (second t)
  +:+ (if microsecond t =? 0 then "" else "." +:+ zfill 6 (microsecond t)).

(** ** The world outside the device layer *)

(** An event callback is opaque to this layer; it is known by an
    identifier and its invocations are recorded. *)
Definition callback := nat.

(** The transport collaborator ([self.api]).  Its replies are not decided
    by the device layer: the reply to the n-th request of a kind is an
    arbitrary value. *)
Record Api := {
  getDeviceHeartbeat : string -> nat -> pyval;
  getDeviceURL : string -> string;
  DEVICES_URL : string;
  _makeGETRequest : string -> nat -> pyval;
  setDeviceWebhookURL : string -> pyval -> nat -> pyval;
  getDeviceWebhookURL : string -> nat -> pyval;
  clearDeviceWebhookURL : string -> nat -> pyval
}.

(** What has happened so far: how many requests of each kind were served,
    the PUT requests in order, the reads of the local clock, and the
    events fired and delivered, oldest first. *)
Record World := {
  beats : nat;
  gets : nat;
  puts : list (string * pyval);
  hooks : nat;
  ticks : nat;
  utcnow_at : nat -> datetime;
  fired : list (string * list pyval);
  delivered : list (callback * string * list pyval)
}.

Definition with_beats (n : nat) (w : World) : World :=
  {| beats := n; gets := gets w; puts := puts w; hooks := hooks w;
     ticks := ticks w; utcnow_at := utcnow_at w; fired := fired w;
     delivered := delivered w |}.
Definition with_gets (n : nat) (w : World) : World :=
  {| beats := beats w; gets := n; puts := puts w; hooks := hooks w;
     ticks := ticks w; utcnow_at := utcnow_at w; fired := fired w;
     delivered := delivered w |}.
Definition with_puts (l : list (string * pyval)) (w : World) : World :=
  {| beats := beats w; gets := gets w; puts := l; hooks := hooks w;
     ticks := ticks w; utcnow_at := utcnow_at w; fired := fired w;
     delivered := delivered w |}.
Definition with_hooks (n : nat) (w : World) : World :=
  {| beats := beats w; gets := gets w; puts := puts w; hooks := n;
     ticks := ticks w; utcnow_at := utcnow_at w; fired := fired w;
     delivered := delivered w |}.
Definition with_ticks (n : nat) (w : World) : World :=
  {| beats := beats w; gets := gets w; puts := puts w; hooks := hooks w;
     ticks := n; utcnow_at := utcnow_at w; fired := fired w;
     delivered := delivered w |}.
Definition with_events (f : list (string * list pyval))
    (d : list (callback * string * list pyval)) (w : World) : World :=
  {| beats := beats w; gets := gets w; puts := puts w; hooks := hooks w;
     ticks := ticks w; utcnow_at := utcnow_at w; fired := f;
     delivered := d |}.

(** ** Methods as state transformers that may raise *)

(** A method runs on [(self, world)]; it returns a value or raises, and in
    both cases leaves the state it has reached. *)
Definition M (T A : Type) : Type := T * World -> result A * (T * World).

Definition ret {T A} (a : A) : M T A := fun s => (Ok a, s).

Definition bind {T A B} (m : M T A) (k : A -> M T B) : M T B :=
  fun s =>
    match m s with
    | (Ok a, s') => k a s'
    | (Raise e, s') => (Raise e, s')
    end.

Notation "'let*' x ':=' c 'in' k" := (bind c (fun x => k))
  (at level 10, x name, c at level 100, k at level 200).
Notation "c ;; k" := (bind c (fun _ => k))
  (at level 100, k at level 200, right associativity).

Definition raise {T A} (e : exn) : M T A := fun s => (Raise e, s).

Definition lift {T A} (r : result A) : M T A := fun s => (r, s).

Definition get_self {T} : M T T := fun s => (Ok (fst s), s).

Definition update_self {T} (f : T -> T) : M T unit :=
  fun s => (Ok tt, (f (fst s), snd s)).

Definition get_world {T} : M T World := fun s => (Ok (snd s), s).

Definition update_world {T} (f : World -> World) : M T unit :=
  fun s => (Ok tt, (fst s, f (snd s))).

(** [datetime.utcnow()]: one read of the local clock. *)
Definition utcnow {T} : M T datetime :=
  let* w := get_world in
  update_world (with_ticks (S (ticks w))) ;;
  ret (utcnow_at w (ticks w)).

(** ** class Device *)

Module Device.

(** The attributes [__init__] gives an instance.  [last_heartbeat] and
    [last_read] hold None or a datetime. *)
Record t := {
  _callbacks : gmap string (list callback);
  api : Api;
  guid : string;
  type : pyval;
  name : pyval;
  is_sensor : bool;
  is_actuator : bool;
  data : pyval;
  last_heartbeat : option datetime;
  last_read : option datetime;
  last_data : pyval
}.

Definition set__callbacks (v : gmap string (list callback)) (d : t) : t :=
  {| _callbacks := v; api := api d; guid := guid d; type := type d; name
     := name d; is_sensor := is_sensor d; is_actuator := is_actuator d;
     data := data d; last_heartbeat := last_heartbeat d; last_read :=
     last_read d; last_data := last_data d |}.
Definition set_api (v : Api) (d : t) : t :=
  {| _callbacks := _callbacks d; api := v; guid := guid d; type := type d;
     name := name d; is_sensor := is_sensor d; is_actuator := is_actuator
     d; data := data d; last_heartbeat := last_heartbeat d; last_read :=
     last_read d; last_data := last_data d |}.
Definition set_guid (v : string) (d : t) : t :=
  {| _callbacks := _callbacks d; api := api d; guid := v; type := type d;
     name := name d; is_sensor := is_sensor d; is_actuator := is_actuator
     d; data := data d; last_heartbeat := last_heartbeat d; last_read :=
     last_read d; last_data := last_data d |}.
Definition set_type (v : pyval) (d : t) : t :=
  {| _callbacks := _callbacks d; api := api d; guid := guid d; type := v;
     name := name d; is_sensor := is_sensor d; is_actuator := is_actuator
     d; data := data d; last_heartbeat := last_heartbeat d; last_read :=
     last_read d; last_data := last_data d |}.
Definition set_name (v : pyval) (d : t) : t :=
  {| _callbacks := _callbacks d; api := api d; guid := guid d; type :=
     type d; name := v; is_sensor := is_sensor d; is_actuator :=
     is_actuator d; data := data d; last_heartbeat := last_heartbeat d;
     last_read := last_read d; last_data := last_data d |}.
Definition set_is_sensor (v : bool) (d : t) : t :=
  {| _callbacks := _callbacks d; api := api d; guid := guid d; type :=
     type d; name := name d; is_sensor := v; is_actuator := is_actuator d;
     data := data d; last_heartbeat := last_heartbeat d; last_read :=
     last_read d; last_data := last_data d |}.
Definition set_is_actuator (v : bool) (d : t) : t :=
  {| _callbacks := _callbacks d; api := api d; guid := guid d; type :=
     type d; name := name d; is_sensor := is_sensor d; is_actuator := v;
     data := data d; last_heartbeat := last_heartbeat d; last_read :=
     last_read d; last_data := last_data d |}.
Definition set_data (v : pyval) (d : t) : t :=
  {| _callbacks := _callbacks d; api := api d; guid := guid d; type :=
     type d; name := name d; is_sensor := is_sensor d; is_actuator :=
     is_actuator d; data := v; last_heartbeat := last_heartbeat d;
     last_read := last_read d; last_data := last_data d |}.
Definition set_last_heartbeat (v : option datetime) (d : t) : t :=
  {| _callbacks := _callbacks d; api := api d; guid := guid d; type :=
     type d; name := name d; is_sensor := is_sensor d; is_actuator :=
     is_actuator d; data := data d; last_heartbeat := v; last_read :=
     last_read d; last_data := last_data d |}.
Definition set_last_read (v : option datetime) (d : t) : t :=
  {| _callbacks := _callbacks d; api := api d; guid := guid d; type :=
     type d; name := name d; is_sensor := is_sensor d; is_actuator :=
     is_actuator d; data := data d; last_heartbeat := last_heartbeat d;
     last_read := v; last_data := last_data d |}.
Definition set_last_data (v : pyval) (d : t) : t :=
  {| _callbacks := _callbacks d; api := api d; guid := guid d; type :=
     type d; name := name d; is_sensor := is_sensor d; is_actuator :=
     is_actuator d; data := data d; last_heartbeat := last_heartbeat d;
     last_read := last_read d; last_data := v |}.

(** class Device.Events: the names of the two events. *)
Definition HEARTBEAT : string := "heartbeat".
Definition CHANGE : string := "change".

(** Modelled from the spec: ninja/events.py (the base class Events with
    [on] and [_fire]) is not among the sources.  [on] subscribes a callback
    to an event name and returns a handle, here the callback's position
    among the event's subscribers. *)
Definition on (event : string) (cb : callback) : M t nat :=
  let* self := get_self in
  let subscribers := default [] (_callbacks self !! event) in
  update_self (set__callbacks (<[event := subscribers ++ [cb]]> (_callbacks self))) ;;
  ret (List.length subscribers).

(** Modelled from the spec: [_fire] of ninja/events.py invokes every
    callback currently subscribed to the event, in subscription order, with
    the same arguments.  The call and each invocation are recorded; a
    callback is taken not to touch the instance and not to raise. *)
Definition _fire (event : string) (args : list pyval) : M t unit :=
  let* self := get_self in
  let subscribers := default [] (_callbacks self !! event) in
  let* w := get_world in
  update_world
    (with_events (fired w ++ [(event, args)])
                 (delivered w ++ map (fun cb => (cb, event, args)) subscribers)).

(** The two hooks a subclass may override. *)
Class Variant := {
  _parse : t -> pyval -> result pyval;
  _dataToJSON : t -> result pyval
}.

(** Device's own hooks: both pass the value through. *)
Definition base : Variant :=
  {| _parse := fun _ data => Ok data;
     _dataToJSON := fun self => Ok (data self) |}.

(** [Device.__init__(self, api, guid, info)], on the instance it is given. *)
Definition __init__ (api_ : Api) (guid_ : string) (info : pyval) : M t unit :=
  update_self (set__callbacks ∅) ;;
  update_self (set_api api_) ;;
  update_self (set_guid guid_) ;;
  let* v := lift (py_get info "device_type" VNone) in
  update_self (set_type v) ;;
  let* v := lift (py_get info "shortName" VNone) in
  update_self (set_name v) ;;
  let* v := lift (py_get info "is_sensor" VNone) in
  update_self (set_is_sensor (py_eq v (VInt 1))) ;;
  let* v := lift (py_get info "is_actuator" VNone) in
  update_self (set_is_actuator (py_eq v (VInt 1))) ;;
  update_self (set_data VNone) ;;
  update_self (set_last_heartbeat None) ;;
  update_self (set_last_read None) ;;
  let* v := lift (py_get info "last_data" (VDict ∅)) in
  update_self (set_last_data v).

(** An instance before [__init__] has run has no attributes; the values
    below stand for that and are all overwritten by [__init__]. *)
Definition bare (api_ : Api) (guid_ : string) : t :=
  {| _callbacks := ∅; api := api_; guid := guid_; type := VNone;
     name := VNone; is_sensor := false; is_actuator := false; data := VNone;
     last_heartbeat := None; last_read := None; last_data := VNone |}.

(** [self.api.getDeviceHeartbeat(self.guid)]. *)
Definition api_getDeviceHeartbeat : M t pyval :=
  let* self := get_self in
  let* w := get_world in
  update_world (with_beats (S (beats w))) ;;
  ret (getDeviceHeartbeat (api self) (guid self) (beats w)).

(** [self.api._makeGETRequest(url)]. *)
Definition api_makeGETRequest (url : string) : M t pyval :=
  let* self := get_self in
  let* w := get_world in
  update_world (with_gets (S (gets w))) ;;
  ret (_makeGETRequest (api self) url (gets w)).

(** [self.api._makePUTRequest(url, data)]; the reply is not used. *)
Definition api_makePUTRequest (url : string) (payload : pyval) : M t unit :=
  let* w := get_world in
  update_world (with_puts (puts w ++ [(url, payload)])).

Section Methods.
Context {variant : Variant}.

(** [Device.heartbeat(self, silent=False)]. *)
Definition heartbeat (silent : bool) : M t (option datetime * pyval) :=
  let* response := api_getDeviceHeartbeat in
  let* id := lift (py_getitem response "id") in
  (if py_eq id (VInt 0) then
     let* self := get_self in
     let previous_data := deepcopy (data self) in
     let* now := utcnow in
     update_self (set_last_heartbeat (Some now)) ;;
     let* payload := lift (py_getitem response "data") in
     let* raw := lift (py_getitem payload "DA") in
     let* self := get_self in
     let* parsed := lift (_parse self raw) in
     update_self (set_data parsed) ;;
     let* payload := lift (py_getitem response "data") in
     let* last_read_ := lift (py_getitem payload "timestamp") in
     let* secs := lift (py_div_1000 last_read_) in
     let* stamp := lift (utcfromtimestamp secs) in
     update_self (set_last_read (Some stamp)) ;;
     if negb silent then
       let* self := get_self in
       _fire HEARTBEAT [data self] ;;
       let* self := get_self in
       if py_ne (data self) previous_data
       then _fire CHANGE [data self; previous_data]
       else ret tt
     else ret tt
   else ret tt) ;;
  let* self := get_self in
  ret (last_read self, data self).

Definition of_stamp (o : option datetime) : pyval :=
  match o with
  | Some s => VDatetime s
  | None => VNone
  end.

(** [getattr(self, field)] for the attributes of a Device. *)
Definition getattr (self : t) (field : string) : result pyval :=
  if String.eqb field "guid" then Ok (VStr (guid self))
  else if String.eqb field "type" then Ok (type self)
  else if String.eqb field "name" then Ok (name self)
  else if String.eqb field "is_sensor" then Ok (VBool (is_sensor self))
  else if String.eqb field "is_actuator" then Ok (VBool (is_actuator self))
  else if String.eqb field "data" then Ok (data self)
  else if String.eqb field "last_heartbeat" then Ok (of_stamp (last_heartbeat self))
  else if String.eqb field "last_read" then Ok (of_stamp (last_read self))
  else if String.eqb field "last_data" then Ok (last_data self)
  else Raise (AttributeError field).

Definition fields : list string :=
  ["guid"; "type"; "name"; "is_sensor"; "is_actuator"; "data";
   "last_heartbeat"; "last_read"; "last_data"].

(** The loop [for field in fields: device_dict[field] = getattr(self, field)]. *)
Fixpoint fill (self : t) (fs : list string) (device_dict : gmap string pyval)
  : result (gmap string pyval) :=
  match fs with
  | [] => Ok device_dict
  | field :: rest =>
      match getattr self field with
      | Ok v => fill self rest (<[field := v]> device_dict)
      | Raise e => Raise e
      end
  end.

(** [Device.asDict(self, for_json=False)]; a datetime is always true, so
    [if self.last_read:] tests for None. *)
Definition asDict (self : t) (for_json : bool) : result (gmap string pyval) :=
  match fill self fields ∅ with
  | Raise e => Raise e
  | Ok device_dict =>
      if for_json then
        match _dataToJSON self with
        | Raise e => Raise e
        | Ok json =>
            let device_dict := <["data" := json]> device_dict in
            let device_dict :=
              match last_read self with
              | Some s => <["last_read" := VStr (isoformat s)]> device_dict
              | None => device_dict
              end in
            let device_dict :=
              match last_heartbeat self with
              | Some s => <["last_heartbeat" := VStr (isoformat s)]> device_dict
              | None => device_dict
              end in
            Ok device_dict
        end
      else Ok device_dict
  end.

End Methods.

(** The webhook calls pass through to the transport. *)
Definition setWebhookURL (url : pyval) : M t pyval :=
  let* self := get_self in
  let* w := get_world in
  update_world (with_hooks (S (hooks w))) ;;
  ret (setDeviceWebhookURL (api self) (guid self) url (hooks w)).

Definition getWebhookURL : M t pyval :=
  let* self := get_self in
  let* w := get_world in
  update_world (with_hooks (S (hooks w))) ;;
  ret (getDeviceWebhookURL (api self) (guid self) (hooks w)).

Definition clearWebhookURL : M t pyval :=
  let* self := get_self in
  let* w := get_world in
  update_world (with_hooks (S (hooks w))) ;;
  ret (clearDeviceWebhookURL (api self) (guid self) (hooks w)).

(** [onHeartbeat]: shortcut for [on('heartbeat', callback)]. *)
Definition onHeartbeat (cb : callback) : M t nat := on HEARTBEAT cb.

(** [Device(api, guid, info)]: a new instance, or the exception raised by
    [__init__]. *)
Definition new (api_ : Api) (guid_ : string) (info : pyval) (w : World)
  : result t :=
  match __init__ api_ guid_ info (bare api_ guid_, w) with
  | (Ok _, s) => Ok (fst s)
  | (Raise e, _) => Raise e
  end.

(** [time.sleep(period)] for a period that is not negative: time passes
    and nothing of the instance or of the world recorded here changes. *)
Definition time_sleep (period : nat) : M t unit := ret tt.

(** [Device.pulse(self, period=10)], the loop
    [while True: self.heartbeat(); time.sleep(period)], cut after [rounds]
    rounds.  The loop has no exit of its own: [Ok] means it is still
    running after that many rounds, [Raise] that a poll has raised and
    ended it. *)
Fixpoint pulse {variant : Variant} (rounds period : nat) : M t unit :=
  match rounds with
  | O => ret tt
  | S rounds' =>
      heartbeat false ;;
      time_sleep period ;;
      pulse rounds' period
  end.

End Device.

(** ** The subclasses *)

Module TemperatureSensor.

(** [units.Temperature] is not among the sources: its constructor
    [Temperature(c=data)] and the conversion [float(self.data)] are left
    as parameters of the variant. *)
Definition variant (Temperature float : pyval -> result pyval)
  : Device.Variant :=
  {| Device._parse := fun _ data => Temperature data;
     Device._dataToJSON := fun self => float (Device.data self) |}.

End TemperatureSensor.

Module Button.

(** [Button.isPushed(self)]. *)
Definition isPushed (self : Device.t) : bool :=
  py_eq (Device.data self) (VInt 0).

End Button.

Module RGBLED.

(** An RGBLED is a Device with one more attribute, [_last_color]. *)
Record t := {
  dev : Device.t;
  _last_color : pyval
}.

Definition set_dev (d : Device.t) (r : t) : t :=
  {| dev := d; _last_color := _last_color r |}.
Definition set__last_color (v : pyval) (r : t) : t :=
  {| dev := dev r; _last_color := v |}.

Definition zoom {A} (m : M Device.t A) : M t A :=
  fun s =>
    let r := m (dev (fst s), snd s) in
    (fst r, (set_dev (fst (snd r)) (fst s), snd (snd r))).

Section Units.

(** [units.Color] is not among the sources: [Color_hex args] stands for
    [Color( *args).hex], [BLACK] and [WHITE] for the two class constants,
    and [truth] for the truth value Python gives an object. *)
Context (Color_hex : list pyval -> result pyval) (BLACK WHITE : pyval)
        (truth : pyval -> bool).

(** [RGBLED.__init__]. *)
Definition __init__ (api_ : Api) (guid_ : string) (info : pyval) : M t unit :=
  zoom (Device.__init__ api_ guid_ info) ;;
  update_self (set__last_color BLACK).

(** [RGBLED.setColor(self, *args)]. *)
Definition setColor (args : list pyval) : M t unit :=
  let* self := get_self in
  (if negb (truth (_last_color self))
   then update_self (set__last_color WHITE)
   else ret tt) ;;
  let* hex := lift (Color_hex args) in
  let payload := VDict {[ "DA" := hex ]} in
  let* self := get_self in
  zoom (Device.api_makePUTRequest
          (getDeviceURL (Device.api (dev self)) (Device.guid (dev self)))
          payload).

(** [RGBLED.turnOn(self)]: back to the last color. *)
Definition turnOn : M t unit :=
  let* self := get_self in
  setColor [_last_color self].

(** [RGBLED.turnOff(self)]. *)
Definition turnOff : M t unit :=
  let* self := get_self in
  update_self (set__last_color (Device.data (dev self))) ;;
  setColor [BLACK].

End Units.

End RGBLED.

Module Relay.

(** A Relay is a Device with one more attribute, [state]: False, True or
    None. *)
Record t := {
  dev : Device.t;
  state : option bool
}.

Definition set_dev (d : Device.t) (r : t) : t :=
  {| dev := d; state := state r |}.
Definition set_state (v : option bool) (r : t) : t :=
  {| dev := dev r; state := v |}.

(** A method inherited from Device, run on the Device part of a Relay. *)
Definition zoom {A} (m : M Device.t A) : M t A :=
  fun s =>
    let r := m (dev (fst s), snd s) in
    (fst r, (set_dev (fst (snd r)) (fst s), snd (snd r))).

(** [Relay.__init__(self, api, guid, info)], on the instance it is given. *)
Definition __init__ (api_ : Api) (guid_ : string) (info : pyval) : M t unit :=
  zoom (Device.__init__ api_ guid_ info) ;;
  let* self := get_self in
  let* last_known_state :=
    lift (py_get (Device.last_data (dev self)) "DA" (VStr "0")) in
  if py_eq last_known_state (VStr "0") then update_self (set_state (Some false))
  else if py_eq last_known_state (VStr "1") then update_self (set_state (Some true))
  else update_self (set_state None).

(** Before [__init__] assigns it, [self.state] reads the class attribute
    [state = False]. *)
Definition bare (api_ : Api) (guid_ : string) : t :=
  {| dev := Device.bare api_ guid_; state := Some false |}.

(** [Relay(api, guid, info)]: a new instance, or the exception raised by
    [__init__]. *)
Definition new (api_ : Api) (guid_ : string) (info : pyval) (w : World)
  : result t :=
  match __init__ api_ guid_ info (bare api_ guid_, w) with
  | (Ok _, s) => Ok (fst s)
  | (Raise e, _) => Raise e
  end.

(** [Relay.unknown_state_check(self)]. *)
Definition unknown_state_check : M t unit :=
  let* self := get_self in
  match state self with
  | None => raise (Warning "Relay device is in an unknown state!")
  | Some _ => ret tt
  end.

(** The property [is_turned_on]: [self.state is True]. *)
Definition is_turned_on : M t bool :=
  unknown_state_check ;;
  let* self := get_self in
  ret (match state self with Some true => true | _ => false end).

(** The property [is_turned_off]: [self.state is False]. *)
Definition is_turned_off : M t bool :=
  unknown_state_check ;;
  let* self := get_self in
  ret (match state self with Some false => true | _ => false end).

(** The loop of [_change_state]:
    [while state_change_confirmed is False and count < 10].  [new_info] is
    unbound (None here) until the body has run once.  The loop runs at
    most [fuel] rounds; [_change_state] gives it 10, which is enough from
    [count = 0] (see [while_fuel]). *)
Fixpoint while_ (fuel : nat) (logical_state : bool)
    (state_change_confirmed : bool) (count : nat) (new_info : option pyval)
  : M t (option pyval) :=
  match fuel with
  | O => ret new_info
  | S fuel' =>
      if negb state_change_confirmed && (count <? 10)%nat then
        let* self := get_self in
        let* reply :=
          zoom (Device.api_makeGETRequest (DEVICES_URL (Device.api (dev self)))) in
        let* devices := lift (py_getitem reply "data") in
        let* info := lift (py_getitem devices (Device.guid (dev self))) in
        let* last := lift (py_getitem info "last_data") in
        let* raw := lift (py_getitem last "DA") in
        let* n := lift (py_int raw) in
        while_ fuel' logical_state (py_is_int n (Z.b2z logical_state))
               (S count) (Some info)
      else ret new_info
  end.

(** [Relay._change_state(self, logical_state)]. *)
Definition _change_state (logical_state : bool) : M t unit :=
  let* self := get_self in
  let payload := VDict {[ "DA" := VStr (py_str_int (Z.b2z logical_state)) ]} in
  zoom (Device.api_makePUTRequest
          (getDeviceURL (Device.api (dev self)) (Device.guid (dev self)))
          payload) ;;
  let* new_info := while_ 10 logical_state false 0 None in
  match new_info with
  | None => raise (UnboundLocalError "new_info")
  | Some info =>
      let* self := get_self in
      __init__ (Device.api (dev self)) (Device.guid (dev self)) info
  end.

Definition turn_on : M t unit := _change_state true.

Definition turn_off : M t unit := _change_state false.

(** *** Sequences of public operations on a Relay *)

Inductive op :=
| Heartbeat (silent : bool)
| AsDict (for_json : bool)
| On (event : string) (cb : callback)
| SetWebhookURL (url : pyval)
| GetWebhookURL
| ClearWebhookURL
| IsTurnedOn
| IsTurnedOff
| TurnOn
| TurnOff.

(** One call; the value it returns is dropped, an exception it raises is
    kept. *)
Definition call (o : op) : M t unit :=
  match o with
  | Heartbeat silent => zoom (Device.heartbeat (variant := Device.base) silent) ;; ret tt
  | AsDict for_json =>
      let* self := get_self in
      lift (Device.asDict (variant := Device.base) (dev self) for_json) ;; ret tt
  | On event cb => zoom (Device.on event cb) ;; ret tt
  | SetWebhookURL url => zoom (Device.setWebhookURL url) ;; ret tt
  | GetWebhookURL => zoom Device.getWebhookURL ;; ret tt
  | ClearWebhookURL => zoom Device.clearWebhookURL ;; ret tt
  | IsTurnedOn => is_turned_on ;; ret tt
  | IsTurnedOff => is_turned_off ;; ret tt
  | TurnOn => turn_on
  | TurnOff => turn_off
  end.

(** The state a call leaves, whether it returned or raised. *)
Definition step (o : op) (s : t * World) : t * World := snd (call o s).

(** The states a sequence of calls goes through, the first one included;
    the caller carries on after an exception. *)
Fixpoint states (ops : list op) (s : t * World) : list (t * World) :=
  match ops with
  | [] => [s]
  | o :: rest => s :: states rest (step o s)
  end.

End Relay.

(** ** Instances of any class *)

Module Instance.

(** The classes whose instances have the attributes of a Device and no
    other: Device itself and the subclasses without an [__init__] of
    their own. *)
Inductive plain :=
| CDevice
| CTemperatureSensor
| CHumiditySensor
| CLightSensor
| CAccelerometer
| CButton.

(** An instance of Device or of one of the classes of [TYPE_MAP]. *)
Inductive t :=
| Plain (c : plain) (d : Device.t)
| Led (r : RGBLED.t)
| Rel (r : Relay.t).

(** The attributes every instance inherits from Device. *)
Definition dev (x : t) : Device.t :=
  match x with
  | Plain _ d => d
  | Led r => RGBLED.dev r
  | Rel r => Relay.dev r
  end.

Definition set_dev (d : Device.t) (x : t) : t :=
  match x with
  | Plain c _ => Plain c d
  | Led r => Led (RGBLED.set_dev d r)
  | Rel r => Rel (Relay.set_dev d r)
  end.

(** A method inherited from Device, run on the Device part. *)
Definition zoom {A} (m : M Device.t A) : M t A :=
  fun s =>
    let r := m (dev (fst s), snd s) in
    (fst r, (set_dev (fst (snd r)) (fst s), snd (snd r))).

(** A method of RGBLED or of Relay: on an instance of another class the
    attribute lookup fails. *)
Definition as_led {A} (name : string) (m : M RGBLED.t A) : M t A :=
  fun s =>
    match fst s with
    | Led r =>
        let out := m (r, snd s) in
        (fst out, (Led (fst (snd out)), snd (snd out)))
    | _ => (Raise (AttributeError name), s)
    end.

Definition as_relay {A} (name : string) (m : M Relay.t A) : M t A :=
  fun s =>
    match fst s with
    | Rel r =>
        let out := m (r, snd s) in
        (fst out, (Rel (fst (snd out)), snd (snd out)))
    | _ => (Raise (AttributeError name), s)
    end.

(** What ninja/units.py provides, taken as given: [Temperature(c=data)],
    [float(self.data)] on a Temperature, [Color( *args).hex], the constants
    [Color.BLACK] and [Color.WHITE] and the truth value of an object. *)
Record Units := {
  Temperature : pyval -> result pyval;
  float : pyval -> result pyval;
  Color_hex : list pyval -> result pyval;
  BLACK : pyval;
  WHITE : pyval;
  truth : pyval -> bool
}.

(** The public methods of the classes, by name. *)
Inductive method :=
| Heartbeat (silent : bool)
| AsDict (for_json : bool)
| On (event : string) (cb : callback)
| OnHeartbeat (cb : callback)
| Pulse (rounds period : nat)
| SetWebhookURL (url : pyval)
| GetWebhookURL
| ClearWebhookURL
| IsPushed
| SetColor (args : list pyval)
| TurnOn
| TurnOff
| Unknown_state_check
| Is_turned_on
| Is_turned_off
| Turn_on
| Turn_off.

Section Calls.
Context (u : Units).

(** The hooks of the instance's class: TemperatureSensor overrides both,
    every other class inherits Device's. *)
Definition variant (x : t) : Device.Variant :=
  match x with
  | Plain CTemperatureSensor _ =>
      TemperatureSensor.variant (Temperature u) (float u)
  | _ => Device.base
  end.

(** One call [x.method(...)]; the value it returns is dropped, an
    exception it raises is kept.  [pulse] is cut after [rounds] rounds. *)
Definition call (o : method) : M t unit :=
  let* self := get_self in
  match o with
  | Heartbeat silent =>
      zoom (Device.heartbeat (variant := variant self) silent) ;; ret tt
  | AsDict for_json =>
      lift (Device.asDict (variant := variant self) (dev self) for_json) ;;
      ret tt
  | On event cb => zoom (Device.on event cb) ;; ret tt
  | OnHeartbeat cb => zoom (Device.onHeartbeat cb) ;; ret tt
  | Pulse rounds period =>
      zoom (Device.pulse (variant := variant self) rounds period) ;; ret tt
  | SetWebhookURL url => zoom (Device.setWebhookURL url) ;; ret tt
  | GetWebhookURL => zoom Device.getWebhookURL ;; ret tt
  | ClearWebhookURL => zoom Device.clearWebhookURL ;; ret tt
  | IsPushed =>
      match self with
      | Plain CButton d => ret (Button.isPushed d) ;; ret tt
      | _ => raise (AttributeError "isPushed")
      end
  | SetColor args =>
      as_led "setColor" (RGBLED.setColor (Color_hex u) (WHITE u) (truth u) args)
  | TurnOn => as_led "turnOn" (RGBLED.turnOn (Color_hex u) (WHITE u) (truth u))
  | TurnOff =>
      as_led "turnOff"
        (RGBLED.turnOff (Color_hex u) (BLACK u) (WHITE u) (truth u))
  | Unknown_state_check =>
      as_relay "unknown_state_check" Relay.unknown_state_check
  | Is_turned_on => as_relay "is_turned_on" (Relay.is_turned_on ;; ret tt)
  | Is_turned_off => as_relay "is_turned_off" (Relay.is_turned_off ;; ret tt)
  | Turn_on => as_relay "turn_on" Relay.turn_on
  | Turn_off => as_relay "turn_off" Relay.turn_off
  end.

(** The state a call leaves, whether it returned or raised. *)
Definition step (o : method) (s : t * World) : t * World := snd (call o s).

(** The states a sequence of calls goes through, the first one included;
    the caller carries on after an exception. *)
Fixpoint states (ops : list method) (s : t * World) : list (t * World) :=
  match ops with
  | [] => [s]
  | o :: rest => s :: states rest (step o s)
  end.

End Calls.

End Instance.

(** ** Vocabulary of the statements *)

(** The reply the transport gives to the next poll of [self]. *)
Definition poll_reply (self : Device.t) (w : World) : pyval :=
  getDeviceHeartbeat (Device.api self) (Device.guid self) (beats w).

(** The description of device [g] in the reply to the k-th fetch of the
    directory: [_makeGETRequest(DEVICES_URL)['data'][g]]. *)
Definition fetched (a : Api) (g : string) (k : nat) : result pyval :=
  match py_getitem (_makeGETRequest a (DEVICES_URL a) k) "data" with
  | Ok devices => py_getitem devices g
  | Raise e => Raise e
  end.

(** The integer value of the raw state that fetch reports:
    [int(new_info['last_data']['DA'])]. *)
Definition reported (a : Api) (g : string) (k : nat) : result Z :=
  match fetched a g k with
  | Ok info =>
      match py_getitem info "last_data" with
      | Ok last =>
          match py_getitem last "DA" with
          | Ok raw => py_int raw
          | Raise e => Raise e
          end
      | Raise e => Raise e
      end
  | Raise e => Raise e
  end.

(** The hub's time of a reading, as [heartbeat] converts it:
    [datetime.utcfromtimestamp(data['data']['timestamp'] / 1000)]. *)
Definition hub_stamp (payload : pyval) : result datetime :=
  match py_getitem payload "timestamp" with
  | Ok last =>
      match py_div_1000 last with
      | Ok secs => utcfromtimestamp secs
      | Raise e => Raise e
      end
  | Raise e => Raise e
  end.

(** Whether the transport marks the next poll of [self] successful:
    [data['id'] == 0] on its reply. *)
Definition poll_succeeds (self : Device.t) (w : World) : Prop :=
  exists id, py_getitem (poll_reply self w) "id" = Ok id /\
             py_eq id (VInt 0) = true.

(** The payload of the write that a command sends. *)
Definition command_payload (logical_state : bool) : pyval :=
  VDict {[ "DA" := VStr (if logical_state then "1" else "0") ]}.

(** A timestamp as [asDict] renders it for JSON. *)
Definition stamp_json (o : option datetime) : pyval :=
  match o with
  | Some s => VStr (isoformat s)
  | None => VNone
  end.

(** The keys of the record that [asDict] produces. *)
Definition record_keys : gset string :=
  {[ "guid"; "type"; "name"; "is_sensor"; "is_actuator"; "data";
     "last_heartbeat"; "last_read"; "last_data" ]}.



(** The transport refuses the poll that comes [j] polls from now: its
    reply carries a status and the status is not success. *)
Definition refused (self : Device.t) (w : World) (j : nat) : Prop :=
  exists id,
    py_getitem (getDeviceHeartbeat (Device.api self) (Device.guid self)
                  (beats w + j)) "id" = Ok id /\
    py_eq id (VInt 0) = false.

(** ** A sample hub

    A transport whose replies are fixed, used to run the methods on
    concrete inputs. *)

Module Sample.

Definition reading (da : pyval) (millis : Z) : pyval :=
  VDict {[ "id" := VInt 0;
           "data" := VDict {[ "DA" := da; "timestamp" := VInt millis ]} ]}.

(** The replies to successive polls: two equal readings, a refusal, then a
    new reading. *)
Definition heartbeats (n : nat) : pyval :=
  match n with
  | 0%nat => reading (VStr "1") 1362096000123
  | 1%nat => reading (VStr "1") 1362096010456
  | 2%nat => VDict {[ "id" := VInt 404 ]}
  | _ => reading (VStr "0") 1362096020789
  end.

Definition description_fields (da : pyval) : gmap string pyval :=
  {[ "device_type" := VStr "relay"; "shortName" := VStr "Lamp";
     "is_sensor" := VInt 0; "is_actuator" := VInt 1;
     "last_data" := VDict {[ "DA" := da ]} ]}.

Definition description (da : pyval) : pyval :=
  VDict (description_fields da).

(** The directory: the relay "g1" shows "0" on the first three fetches and
    "1" from then on. *)
Definition directory (n : nat) : pyval :=
  VDict {[ "data" :=
    VDict {[ "g1" := description (VStr (if (n <? 3)%nat then "0" else "1")) ]} ]}.

Definition hub : Api :=
  {| getDeviceHeartbeat := fun _ n => heartbeats n;
     getDeviceURL := fun g => "device/" +:+ g;
     DEVICES_URL := "devices";
     _makeGETRequest := fun _ n => directory n;
     setDeviceWebhookURL := fun _ _ _ => VNone;
     getDeviceWebhookURL := fun _ _ => VNone;
     clearDeviceWebhookURL := fun _ _ => VNone |}.

(** A fresh world; the local clock advances one second per read. *)
Definition start : World :=
  {| beats := 0; gets := 0; puts := []; hooks := 0; ticks := 0;
     utcnow_at := fun n => mkDatetime 2013 3 1 0 0 (Z.of_nat n) 0;
     fired := []; delivered := [] |}.

(** A relay built from a description whose raw state is [da]. *)
Definition relay (da : pyval) : Relay.t :=
  match Relay.new hub "g1" (description da) start with
  | Ok r => r
  | Raise _ => Relay.bare hub "g1"
  end.

Definition device : Device.t := Relay.dev (relay (VStr "0")).

(** The relay after a subscription to CHANGE, then after one poll, then
    after [turn_on]. *)
Definition subscribed : Relay.t * World :=
  Relay.step (Relay.On Device.CHANGE 7%nat) (relay (VStr "0"), start).

Definition polled : Relay.t * World :=
  Relay.step (Relay.Heartbeat false) subscribed.

Definition commanded : Relay.t * World :=
  Relay.step Relay.TurnOn polled.

(** A hub that misbehaves.  Its first reply to a poll is not a dict, its
    second has a success status and a raw value but no timestamp, the
    later ones read the int 0.  Its directory shows the raw state "x" on
    the first fetch and the int 1 afterwards. *)
Definition odd_heartbeats (n : nat) : pyval :=
  match n with
  | 0%nat => VNone
  | 1%nat => VDict {[ "id" := VInt 0; "data" := VDict {[ "DA" := VStr "0" ]} ]}
  | _ => reading (VInt 0) 1362096000999
  end.

Definition odd_directory (n : nat) : pyval :=
  VDict {[ "data" :=
    VDict {[ "g1" := description (if (n <? 1)%nat then VStr "x" else VInt 1) ]} ]}.

Definition odd_hub : Api :=
  {| getDeviceHeartbeat := fun _ n => odd_heartbeats n;
     getDeviceURL := fun g => "device/" +:+ g;
     DEVICES_URL := "devices";
     _makeGETRequest := fun _ n => odd_directory n;
     setDeviceWebhookURL := fun _ _ _ => VNone;
     getDeviceWebhookURL := fun _ _ => VNone;
     clearDeviceWebhookURL := fun _ _ => VNone |}.

Definition odd_device : Device.t := Device.set_api odd_hub device.

Definition odd_relay : Relay.t := Relay.set_dev odd_device (relay (VStr "0")).

(** Stand-ins for [units.Color] on the sample hub: a color is its hex
    string, [Color(s).hex] is [s] for one string argument and a TypeError
    otherwise, and the truth value is Python's on the modelled values. *)
Definition color_hex (args : list pyval) : result pyval :=
  match args with
  | [VStr s] => Ok (VStr s)
  | _ => Raise TypeError
  end.

Definition truth (v : pyval) : bool :=
  match v with
  | VNone => false
  | VBool b => b
  | VInt z => negb (z =? 0)
  | VStr s => negb (String.eqb s "")
  | VList l => match l with [] => false | _ => true end
  | VDict d => negb (Nat.eqb (size d) 0)
  | VDatetime _ => true
  | VFloat f => negb (float_eq_Z f 0)
  end.

Definition BLACK : pyval := VStr "000000".
Definition WHITE : pyval := VStr "FFFFFF".

(** An RGBLED right after construction, never polled. *)
Definition led : RGBLED.t :=
  {| RGBLED.dev := device; RGBLED._last_color := BLACK |}.

(** Stand-ins for [units.Temperature]: a temperature is its reading in
    Celsius, a number, and [float] of it is that number as a float. *)
Definition Temperature (data : pyval) : result pyval :=
  match data with
  | VBool _ | VInt _ | VFloat _ => Ok data
  | _ => Raise TypeError
  end.

Definition float (v : pyval) : result pyval :=
  match v with
  | VFloat _ => Ok v
  | VBool _ | VInt _ =>
      match num_of v with
      | Some z => Ok (VFloat (float_of_Z z))
      | None => Raise TypeError
      end
  | _ => Raise TypeError
  end.

Definition units : Instance.Units :=
  {| Instance.Temperature := Temperature; Instance.float := float;
     Instance.Color_hex := color_hex; Instance.BLACK := BLACK;
     Instance.WHITE := WHITE; Instance.truth := truth |}.

(** A hub whose sensor reads floats: 21.5 degrees at a float timestamp
    with 123 ms, then NaN, then 0.0. *)
Definition float_heartbeats (n : nat) : pyval :=
  let stamp := VFloat (float_of_Z 1362096000123) in
  let da :=
    match n with
    | 0%nat => VFloat (SFdiv prec emax (float_of_Z 43) (float_of_Z 2))
    | 1%nat | 2%nat => VFloat S754_nan
    | _ => VFloat (float_of_Z 0)
    end in
  VDict {[ "id" := VInt 0;
           "data" := VDict {[ "DA" := da; "timestamp" := stamp ]} ]}.

Definition float_hub : Api :=
  {| getDeviceHeartbeat := fun _ n => float_heartbeats n;
     getDeviceURL := fun g => "device/" +:+ g;
     DEVICES_URL := "devices";
     _makeGETRequest := fun _ n => directory n;
     setDeviceWebhookURL := fun _ _ _ => VNone;
     getDeviceWebhookURL := fun _ _ => VNone;
     clearDeviceWebhookURL := fun _ _ => VNone |}.

Definition float_device : Device.t := Device.set_api float_hub device.

End Sample.

(** * Properties *)

(** Unfolds the plumbing of [M] so that a method body computes. *)
Ltac run_M :=
  unfold bind, ret, raise, lift, get_self, update_self, get_world,
    update_world, utcnow; cbn.

(** Python's [==] against a string literal holds for that string only. *)
Lemma py_eq_str (v : pyval) (s : string) :
  py_eq v (VStr s) = true <-> v = VStr s.
Proof.
  destruct v; cbn; try (split; [discriminate | intros H; discriminate H]).
  rewrite String.eqb_eq. split; congruence.
Qed.

(** A finite float that is not a zero has a mantissa, so it is not 0. *)
Lemma float_eq_Z_zero (f : spec_float) :
  float_eq_Z f 0 = true <-> exists s, f = S754_zero s.
Proof.
  destruct f as [s | s | | s m e]; cbn.
  - split; eauto.
  - split; [discriminate | intros [t H]; discriminate H].
  - split; [discriminate | intros [t H]; discriminate H].
  - split; [| intros [t H]; discriminate H].
    assert (Hv : cond_Zopp s (Z.pos m) <> 0) by (destruct s; cbn; lia).
    destruct (0 <=? e) eqn:He; rewrite Z.eqb_eq; intros H.
    + apply Z.leb_le in He.
      assert (0 < 2 ^ e) by (apply Z.pow_pos_nonneg; lia). nia.
    + contradiction.
Qed.

(** Python's [== 0] holds for the int 0, for [False], which is the int 0
    too, for the float zeros 0.0 and -0.0, and for nothing else. *)
Lemma py_eq_zero (v : pyval) :
  py_eq v (VInt 0) = true <->
  v = VInt 0 \/ v = VBool false \/ exists s, v = VFloat (S754_zero s).
Proof.
  destruct v as [ | b | z | | | | | f ]; cbn;
    try (split; [discriminate | intros [H|[H|[sg H]]]; discriminate H]).
  - destruct b; cbn; split; auto; try discriminate.
    intros [H|[H|[sg H]]]; discriminate H.
  - rewrite Z.eqb_eq. split; [intros ->; auto | intros [H|[H|[sg H]]]; congruence].
  - change (float_eq_Z f 0 = true <->
            VFloat f = VInt 0 \/ VFloat f = VBool false \/
            exists sg, VFloat f = VFloat (S754_zero sg)).
    rewrite float_eq_Z_zero. split.
    + intros [sg ->]. eauto.
    + intros [H|[H|[sg H]]]; try discriminate H. inversion H. eauto.
Qed.

Arguments utcfromtimestamp : simpl never.
Arguments py_div_1000 : simpl never.
Arguments py_int : simpl never.
Arguments py_eq : simpl never.
Arguments py_ne : simpl never.
Arguments isoformat : simpl never.

(** ** The builtins on sample inputs *)

Example int_of_string_examples :
  int_of_string "1" = Ok 1 /\ int_of_string " -42 " = Ok (-42) /\
  int_of_string "01" = Ok 1 /\ int_of_string "x" = Raise ValueError /\
  int_of_string "" = Raise ValueError /\ int_of_string "1 2" = Raise ValueError.
Proof. repeat split; reflexivity. Qed.

Example utcfromtimestamp_examples :
  utcfromtimestamp (VInt 0) = Ok (mkDatetime 1970 1 1 0 0 0 0) /\
  utcfromtimestamp (VInt 1362096000) = Ok (mkDatetime 2013 3 1 0 0 0 0) /\
  utcfromtimestamp (VInt 951782399) = Ok (mkDatetime 2000 2 28 23 59 59 0) /\
  utcfromtimestamp (VInt (-1)) = Ok (mkDatetime 1969 12 31 23 59 59 0) /\
  utcfromtimestamp (VInt (2 ^ 1024)) = Raise OverflowError /\
  utcfromtimestamp (VStr "0") = Raise TypeError.
Proof. repeat split; vm_compute; reflexivity. Qed.

(** Float timestamps keep their microseconds: 1362096000123.0 / 1000 is
    123 ms past the second, -1.5 is half a second before 23:59:59, and a
    rest that rounds to a full second carries. *)
Example utcfromtimestamp_float_examples :
  let stamp_of v :=
    match py_div_1000 v with
    | Ok secs => utcfromtimestamp secs
    | Raise e => Raise e
    end in
  stamp_of (VFloat (float_of_Z 1362096000123))
    = Ok (mkDatetime 2013 3 1 0 0 0 123000) /\
  stamp_of (VFloat (float_of_Z (-1500)))
    = Ok (mkDatetime 1969 12 31 23 59 58 500000) /\
  stamp_of (VFloat (float_of_Z 1362096000000))
    = Ok (mkDatetime 2013 3 1 0 0 0 0) /\
  utcfromtimestamp
    (VFloat (SFdiv prec emax (float_of_Z 19999999) (float_of_Z 10000000)))
    = Ok (mkDatetime 1970 1 1 0 0 2 0) /\
  utcfromtimestamp (VFloat S754_nan) = Raise ValueError /\
  utcfromtimestamp (VFloat (S754_infinity false)) = Raise ValueError.
Proof. repeat split; vm_compute; reflexivity. Qed.

(** Equality and [int] on floats. *)
Example float_examples :
  py_eq (VFloat (float_of_Z 0)) (VInt 0) = true /\
  py_eq (VFloat (S754_zero true)) (VBool false) = true /\
  py_eq (VInt 1) (VFloat (float_of_Z 1)) = true /\
  py_eq (VFloat (SFdiv prec emax (float_of_Z 1) (float_of_Z 2))) (VInt 0) = false /\
  py_eq (VFloat (float_of_Z 3)) (VFloat (S754_finite false 3 0)) = true /\
  py_eq (VFloat S754_nan) (VFloat S754_nan) = false /\
  py_int (VFloat (SFdiv prec emax (float_of_Z (-3)) (float_of_Z 2))) = Ok (-1) /\
  py_int (VFloat S754_nan) = Raise ValueError /\
  py_int (VFloat (S754_infinity true)) = Raise OverflowError.
Proof. repeat split; vm_compute; reflexivity. Qed.

Example isoformat_examples :
  isoformat (mkDatetime 2013 3 1 7 5 9 0) = "2013-03-01T07:05:09" /\
  isoformat (mkDatetime 987 12 31 23 59 59 1500) = "0987-12-31T23:59:59.001500".
Proof. split; vm_compute; reflexivity. Qed.

(** ** Polling and notification *)

Section Polling.
Context (V : Device.Variant).

Lemma heartbeat_success self w id payload raw new last secs stamp :
  let now := utcnow_at w (ticks w) in
  let prev := Device.data self in
  py_getitem (poll_reply self w) "id" = Ok id ->
  py_eq id (VInt 0) = true ->
  py_getitem (poll_reply self w) "data" = Ok payload ->
  py_getitem payload "DA" = Ok raw ->
  Device._parse (Device.set_last_heartbeat (Some now) self) raw = Ok new ->
  py_getitem payload "timestamp" = Ok last ->
  py_div_1000 last = Ok secs ->
  utcfromtimestamp secs = Ok stamp ->
  forall silent,
  Device.heartbeat silent (self, w) =
    (Ok (Some stamp, new),
     (Device.set_last_read (Some stamp)
        (Device.set_data new (Device.set_last_heartbeat (Some now) self)),
      let w1 := with_ticks (S (ticks w)) (with_beats (S (beats w)) w) in
      if silent then w1
      else
        let subs e := default [] (Device._callbacks self !! e) in
        let hb := (Device.HEARTBEAT, [new]) in
        let ch := (Device.CHANGE, [new; prev]) in
        if py_ne new prev
        then with_events
               (fired w ++ [hb] ++ [ch])
               (delivered w
                ++ map (fun cb => (cb, Device.HEARTBEAT, [new])) (subs Device.HEARTBEAT)
                ++ map (fun cb => (cb, Device.CHANGE, [new; prev])) (subs Device.CHANGE))
               w1
        else with_events
               (fired w ++ [hb])
               (delivered w
                ++ map (fun cb => (cb, Device.HEARTBEAT, [new])) (subs Device.HEARTBEAT))
               w1)).
Proof.
  intros now prev Hid Hz Hp Hraw Hparse Hts Hdiv Hstamp silent.
  unfold poll_reply in *.
  unfold Device.heartbeat, Device.api_getDeviceHeartbeat, Device._fire.
  run_M. rewrite Hid. cbn. rewrite Hz. cbn. rewrite Hp. cbn.
  rewrite Hraw. cbn. fold now. rewrite Hparse. cbn. rewrite Hts. cbn.
  rewrite Hdiv. cbn. rewrite Hstamp. cbn.
  destruct silent; cbn; [reflexivity|].
  unfold deepcopy. fold prev.
  destruct (py_ne new prev); cbn; unfold with_events; cbn;
    rewrite <- ?app_assoc; reflexivity.
Qed.

End Polling.

(** A poll with a success status returns only on a readable reply: the
    hypotheses of [heartbeat_success] are met by every such poll. *)
Lemma heartbeat_returns_readable (V : Device.Variant) (self : Device.t)
    (w : World) (id : pyval) (silent : bool)
    (v : option datetime * pyval) (s' : Device.t * World) :
  py_getitem (poll_reply self w) "id" = Ok id ->
  py_eq id (VInt 0) = true ->
  Device.heartbeat silent (self, w) = (Ok v, s') ->
  exists payload raw new last secs stamp,
    py_getitem (poll_reply self w) "data" = Ok payload /\
    py_getitem payload "DA" = Ok raw /\
    Device._parse
      (Device.set_last_heartbeat (Some (utcnow_at w (ticks w))) self) raw
      = Ok new /\
    py_getitem payload "timestamp" = Ok last /\
    py_div_1000 last = Ok secs /\
    utcfromtimestamp secs = Ok stamp.
Proof.
  intros Hid Hz. unfold poll_reply in *.
  unfold Device.heartbeat, Device.api_getDeviceHeartbeat. run_M.
  rewrite Hid. cbn. rewrite Hz. cbn.
  destruct (py_getitem _ "data") as [payload|] eqn:Hp; [|discriminate].
  cbn. destruct (py_getitem payload "DA") as [raw|] eqn:Hraw; [|discriminate].
  cbn. destruct (Device._parse _ raw) as [new|] eqn:Hparse; [|discriminate].
  cbn. destruct (py_getitem payload "timestamp") as [last|] eqn:Hts;
    [|discriminate].
  cbn. destruct (py_div_1000 last) as [secs|] eqn:Hdiv; [|discriminate].
  cbn. destruct (utcfromtimestamp secs) as [stamp|] eqn:Hstamp; [|discriminate].
  intros _. exists payload, raw, new, last, secs, stamp. auto 10.
Qed.

(** C1. A poll that the transport marks successful and that is not silent
    returns the hub's timestamp and the newly parsed data, fires HEARTBEAT
    with the new data, and fires CHANGE with (new data, previous data)
    exactly when the new data [!=] the data held before the poll; nothing
    else is fired. *)
Theorem heartbeat_fires_heartbeat_and_change
    (V : Device.Variant) (self : Device.t) (w : World)
    (id payload raw new last : pyval) (secs : pyval) (stamp : datetime) :
  let now := utcnow_at w (ticks w) in
  let prev := Device.data self in
  py_getitem (poll_reply self w) "id" = Ok id ->
  py_eq id (VInt 0) = true ->
  py_getitem (poll_reply self w) "data" = Ok payload ->
  py_getitem payload "DA" = Ok raw ->
  Device._parse (Device.set_last_heartbeat (Some now) self) raw = Ok new ->
  py_getitem payload "timestamp" = Ok last ->
  py_div_1000 last = Ok secs ->
  utcfromtimestamp secs = Ok stamp ->
  exists self' w' events,
    Device.heartbeat false (self, w) = (Ok (Some stamp, new), (self', w')) /\
    Device.data self' = new /\
    fired w' = fired w ++ events /\
    In (Device.HEARTBEAT, [new]) events /\
    (In (Device.CHANGE, [new; prev]) events <-> py_ne new prev = true) /\
    (forall event args, In (event, args) events ->
       (event = Device.HEARTBEAT /\ args = [new]) \/
       (event = Device.CHANGE /\ args = [new; prev])).
Proof.
  intros now prev Hid Hz Hp Hraw Hparse Hts Hdiv Hstamp.
  pose proof (heartbeat_success V self w id payload raw new last secs stamp
                Hid Hz Hp Hraw Hparse Hts Hdiv Hstamp false) as Hrun.
  cbv zeta in Hrun. fold now prev in Hrun.
  destruct (py_ne new prev) eqn:Hne.
  - eexists _, _, [(Device.HEARTBEAT, [new]); (Device.CHANGE, [new; prev])].
    split; [exact Hrun|]. cbn. repeat split; auto.
    intros event args [H|[H|[]]]; inversion H; subst; auto.
  - eexists _, _, [(Device.HEARTBEAT, [new])].
    split; [exact Hrun|]. cbn. repeat split; auto; try discriminate.
    + intros [H|[]]. inversion H.
    + intros event args [H|[]]; inversion H; subst; auto.
Qed.

(** C2. A poll whose reply carries a status other than success leaves the
    Device as it was (its data, last_heartbeat and last_read with it),
    fires and delivers no event, and returns (last_read, data). *)
Theorem heartbeat_failure_changes_nothing
    (V : Device.Variant) (self : Device.t) (w : World) (id : pyval)
    (silent : bool) :
  py_getitem (poll_reply self w) "id" = Ok id ->
  py_eq id (VInt 0) = false ->
  exists self' w',
    Device.heartbeat silent (self, w) =
      (Ok (Device.last_read self, Device.data self), (self', w')) /\
    self' = self /\
    Device.data self' = Device.data self /\
    Device.last_heartbeat self' = Device.last_heartbeat self /\
    Device.last_read self' = Device.last_read self /\
    fired w' = fired w /\
    delivered w' = delivered w.
Proof.
  intros Hid Hz. unfold poll_reply in *.
  exists self, (with_beats (S (beats w)) w).
  unfold Device.heartbeat, Device.api_getDeviceHeartbeat.
  run_M. rewrite Hid. cbn. rewrite Hz. cbn. repeat split; reflexivity.
Qed.

(** The first poll of the sample relay: the data goes from None to "1". *)
Lemma heartbeat_fires_heartbeat_and_change_witness :
  exists self' w' events,
    Device.heartbeat (variant := Device.base) false
      (Sample.device, Sample.start) =
      (Ok (Some (mkDatetime 2013 3 1 0 0 0 0), VStr "1"), (self', w')) /\
    Device.data self' = VStr "1" /\
    fired w' = fired Sample.start ++ events /\
    In (Device.HEARTBEAT, [VStr "1"]) events /\
    (In (Device.CHANGE, [VStr "1"; VNone]) events <->
     py_ne (VStr "1") VNone = true) /\
    (forall event args, In (event, args) events ->
       (event = Device.HEARTBEAT /\ args = [VStr "1"]) \/
       (event = Device.CHANGE /\ args = [VStr "1"; VNone])).
Proof.
  apply (heartbeat_fires_heartbeat_and_change Device.base Sample.device
           Sample.start (VInt 0)
           (VDict {[ "DA" := VStr "1"; "timestamp" := VInt 1362096000123 ]})
           (VStr "1") (VStr "1") (VInt 1362096000123) (VInt 1362096000)
           (mkDatetime 2013 3 1 0 0 0 0));
    vm_compute; reflexivity.
Defined.

(** The third poll of the sample hub is refused with status 404. *)
Lemma heartbeat_failure_changes_nothing_witness :
  let self := Sample.device in
  let w := with_beats 2 Sample.start in
  exists self' w',
    Device.heartbeat (variant := Device.base) false (self, w) =
      (Ok (Device.last_read self, Device.data self), (self', w')) /\
    self' = self /\
    Device.data self' = Device.data self /\
    Device.last_heartbeat self' = Device.last_heartbeat self /\
    Device.last_read self' = Device.last_read self /\
    fired w' = fired w /\
    delivered w' = delivered w.
Proof.
  apply (heartbeat_failure_changes_nothing Device.base Sample.device
           (with_beats 2 Sample.start) (VInt 404) false);
    vm_compute; reflexivity.
Defined.

(** ** Construction *)

(** The Device that [__init__] leaves when [info] is a dict: every
    attribute is overwritten, whatever the instance held before. *)
Lemma device_init_dict (a : Api) (g : string) (m : gmap string pyval)
    (d : Device.t) (w : World) :
  Device.__init__ a g (VDict m) (d, w) =
    (Ok tt,
     ({| Device._callbacks := ∅;
         Device.api := a;
         Device.guid := g;
         Device.type := default VNone (m !! "device_type");
         Device.name := default VNone (m !! "shortName");
         Device.is_sensor := py_eq (default VNone (m !! "is_sensor")) (VInt 1);
         Device.is_actuator := py_eq (default VNone (m !! "is_actuator")) (VInt 1);
         Device.data := VNone;
         Device.last_heartbeat := None;
         Device.last_read := None;
         Device.last_data := default (VDict ∅) (m !! "last_data") |}, w)).
Proof. reflexivity. Qed.

(** The tri-state that [Relay.__init__] derives from the raw value. *)
Lemma relay_init_dict (a : Api) (g : string) (m l : gmap string pyval)
    (r : Relay.t) (w : World) :
  default (VDict ∅) (m !! "last_data") = VDict l ->
  let raw := default (VStr "0") (l !! "DA") in
  exists d,
    Device.__init__ a g (VDict m) (Relay.dev r, w) = (Ok tt, (d, w)) /\
    Relay.__init__ a g (VDict m) (r, w) =
      (Ok tt,
       ({| Relay.dev := d;
           Relay.state :=
             if py_eq raw (VStr "0") then Some false
             else if py_eq raw (VStr "1") then Some true
             else None |}, w)).
Proof.
  intros Hl raw. eexists. split; [apply device_init_dict|].
  unfold Relay.__init__, Relay.zoom, bind. cbn [fst snd].
  rewrite device_init_dict.
  run_M. rewrite Hl. cbn. fold raw.
  destruct (py_eq raw (VStr "0")); [reflexivity|].
  destruct (py_eq raw (VStr "1")); reflexivity.
Qed.

(** Re-running [__init__] on a live instance leaves what the constructor
    builds from the same description. *)
Lemma relay_init_is_new (a : Api) (g : string) (m l : gmap string pyval)
    (r : Relay.t) (w w0 : World) :
  default (VDict ∅) (m !! "last_data") = VDict l ->
  exists r',
    Relay.new a g (VDict m) w0 = Ok r' /\
    Relay.__init__ a g (VDict m) (r, w) = (Ok tt, (r', w)).
Proof.
  intros Hl.
  destruct (relay_init_dict a g m l r w Hl) as (d & Hd & Hr).
  destruct (relay_init_dict a g m l (Relay.bare a g) w0 Hl) as (d0 & Hd0 & Hr0).
  rewrite device_init_dict in Hd, Hd0.
  injection Hd as <-. injection Hd0 as <-.
  eexists. split; [|exact Hr].
  unfold Relay.new. rewrite Hr0. reflexivity.
Qed.

(** The accessors on a known and on an unknown state. *)
Lemma relay_accessors_known (r : Relay.t) (w : World) (b : bool) :
  Relay.state r = Some b ->
  Relay.is_turned_on (r, w) = (Ok b, (r, w)) /\
  Relay.is_turned_off (r, w) = (Ok (negb b), (r, w)).
Proof.
  intros H. unfold Relay.is_turned_on, Relay.is_turned_off,
    Relay.unknown_state_check.
  run_M. rewrite H. cbn. rewrite H. destruct b; split; reflexivity.
Qed.

Lemma relay_accessors_unknown (r : Relay.t) (w : World) :
  Relay.state r = None ->
  let unknown := Warning "Relay device is in an unknown state!" in
  Relay.is_turned_on (r, w) = (Raise unknown, (r, w)) /\
  Relay.is_turned_off (r, w) = (Raise unknown, (r, w)).
Proof.
  intros H. unfold Relay.is_turned_on, Relay.is_turned_off,
    Relay.unknown_state_check.
  run_M. rewrite H. split; reflexivity.
Qed.

(** C4. A Relay built from a description is Off when the raw last-known
    state is the string "0", On when it is "1" and Unknown for any other
    raw value; [is_turned_on] and [is_turned_off] return the expected
    booleans when the state is Off or On, and both raise the unknown-state
    Warning when it is Unknown. *)
Theorem relay_state_and_accessors
    (a : Api) (g : string) (m l : gmap string pyval) (w : World) :
  default (VDict ∅) (m !! "last_data") = VDict l ->
  let raw := default (VStr "0") (l !! "DA") in
  let unknown := Warning "Relay device is in an unknown state!" in
  exists r,
    Relay.new a g (VDict m) w = Ok r /\
    (raw = VStr "0" ->
       Relay.state r = Some false /\
       forall w', Relay.is_turned_on (r, w') = (Ok false, (r, w')) /\
                  Relay.is_turned_off (r, w') = (Ok true, (r, w'))) /\
    (raw = VStr "1" ->
       Relay.state r = Some true /\
       forall w', Relay.is_turned_on (r, w') = (Ok true, (r, w')) /\
                  Relay.is_turned_off (r, w') = (Ok false, (r, w'))) /\
    (raw <> VStr "0" -> raw <> VStr "1" ->
       Relay.state r = None /\
       forall w', Relay.is_turned_on (r, w') = (Raise unknown, (r, w')) /\
                  Relay.is_turned_off (r, w') = (Raise unknown, (r, w'))).
Proof.
  intros Hl raw unknown.
  destruct (relay_init_dict a g m l (Relay.bare a g) w Hl) as (d & _ & Hr).
  fold raw in Hr.
  set (st := if py_eq raw (VStr "0") then Some false
            else if py_eq raw (VStr "1") then Some true else None) in Hr.
  exists {| Relay.dev := d; Relay.state := st |}.
  split; [unfold Relay.new; rewrite Hr; reflexivity|].
  split; [|split].
  - intros H. assert (Hst : st = Some false) by (subst st; now rewrite H).
    split; [exact Hst|]. intros w'.
    exact (relay_accessors_known {| Relay.dev := d; Relay.state := st |} w' false Hst).
  - intros H. assert (Hst : st = Some true) by (subst st; now rewrite H).
    split; [exact Hst|]. intros w'.
    exact (relay_accessors_known {| Relay.dev := d; Relay.state := st |} w' true Hst).
  - intros H0 H1. assert (Hst : st = None).
    { subst st.
      destruct (py_eq raw (VStr "0")) eqn:E0;
        [apply py_eq_str in E0; contradiction|].
      destruct (py_eq raw (VStr "1")) eqn:E1;
        [apply py_eq_str in E1; contradiction|]. reflexivity. }
    split; [exact Hst|]. intros w'.
    exact (relay_accessors_unknown {| Relay.dev := d; Relay.state := st |} w' Hst).
Qed.

(** A relay whose raw state is "x". *)
Lemma relay_state_and_accessors_witness :
  exists r,
    Relay.new Sample.hub "g1" (Sample.description (VStr "x")) Sample.start
      = Ok r /\
    Relay.state r = None /\
    fst (Relay.is_turned_on (r, Sample.start)) =
      Raise (Warning "Relay device is in an unknown state!") /\
    fst (Relay.is_turned_off (r, Sample.start)) =
      Raise (Warning "Relay device is in an unknown state!").
Proof.
  assert (Hl : default (VDict ∅)
                 (Sample.description_fields (VStr "x") !! "last_data")
               = VDict {[ "DA" := VStr "x" ]})
    by (vm_compute; reflexivity).
  destruct (relay_state_and_accessors Sample.hub "g1"
              (Sample.description_fields (VStr "x")) {[ "DA" := VStr "x" ]}
              Sample.start Hl) as (r & Hnew & _ & _ & Hx).
  exists r. split; [exact Hnew|].
  assert (H0 : default (VStr "0")
                 (({[ "DA" := VStr "x" ]} : gmap string pyval) !! "DA")
               <> VStr "0") by (vm_compute; discriminate).
  assert (H1 : default (VStr "0")
                 (({[ "DA" := VStr "x" ]} : gmap string pyval) !! "DA")
               <> VStr "1") by (vm_compute; discriminate).
  destruct (Hx H0 H1) as (Hst & Hacc).
  split; [exact Hst|].
  destruct (Hacc Sample.start) as (Hon & Hoff).
  rewrite Hon, Hoff. split; reflexivity.
Defined.

(** C9. A Relay built from a description whose last_data has no 'DA' key
    (or that has no last_data at all) is Off: the missing raw value
    defaults to "0", [is_turned_off] returns True and [is_turned_on]
    returns False, and neither raises. *)
Theorem relay_without_raw_state_is_off
    (a : Api) (g : string) (m l : gmap string pyval) (w : World) :
  default (VDict ∅) (m !! "last_data") = VDict l ->
  l !! "DA" = None ->
  exists r,
    Relay.new a g (VDict m) w = Ok r /\
    Relay.state r = Some false /\
    forall w', Relay.is_turned_off (r, w') = (Ok true, (r, w')) /\
               Relay.is_turned_on (r, w') = (Ok false, (r, w')).
Proof.
  intros Hl Hda.
  destruct (relay_init_dict a g m l (Relay.bare a g) w Hl) as (d & _ & Hr).
  assert (Hraw : default (VStr "0") (l !! "DA") = VStr "0")
    by now rewrite Hda.
  cbv zeta in Hr. rewrite Hraw in Hr.
  change (py_eq (VStr "0") (VStr "0")) with true in Hr. cbv iota in Hr.
  exists {| Relay.dev := d; Relay.state := Some false |}.
  split; [unfold Relay.new; rewrite Hr; reflexivity|].
  split; [reflexivity|]. intros w'.
  destruct (relay_accessors_known
              {| Relay.dev := d; Relay.state := Some false |} w' false eq_refl)
    as (Hon & Hoff).
  split; [exact Hoff | exact Hon].
Qed.

(** A relay built from the empty description. *)
Lemma relay_without_raw_state_is_off_witness :
  exists r,
    Relay.new Sample.hub "g1" (VDict ∅) Sample.start = Ok r /\
    Relay.state r = Some false /\
    forall w', Relay.is_turned_off (r, w') = (Ok true, (r, w')) /\
               Relay.is_turned_on (r, w') = (Ok false, (r, w')).
Proof.
  apply (relay_without_raw_state_is_off Sample.hub "g1" ∅ ∅ Sample.start);
    vm_compute; reflexivity.
Defined.

(** The constructor returns only on a dict description whose last_data
    (the empty dict when absent) is a dict: every Relay that exists
    meets the hypotheses of the two theorems above. *)
Lemma relay_new_inv (a : Api) (g : string) (info : pyval) (w : World)
    (r : Relay.t) :
  Relay.new a g info w = Ok r ->
  exists m l, info = VDict m /\ default (VDict ∅) (m !! "last_data") = VDict l.
Proof.
  unfold Relay.new.
  destruct info as [ | | | | | m | | ]; try (cbn; discriminate).
  unfold Relay.__init__, Relay.zoom, bind. cbn [fst snd].
  rewrite device_init_dict. run_M.
  destruct (default (VDict ∅) (m !! "last_data")) as [ | | | | | l | | ] eqn:Hl;
    try (cbn; discriminate).
  intros _. exists m, l. split; [reflexivity | exact Hl].
Qed.

(** ** Button *)

(** C8. [isPushed] returns True exactly when the data [==] the pressed
    value 0, and False for every other value, None included.  Python's
    [==] holds for the int 0, for [False], which is the int 0, and for the
    floats 0.0 and -0.0; it holds for no other value, NaN and the string
    "0" included. *)
Theorem button_isPushed (self : Device.t) :
  (Button.isPushed self = true <-> py_eq (Device.data self) (VInt 0) = true) /\
  (Button.isPushed self = true <->
     Device.data self = VInt 0 \/ Device.data self = VBool false \/
     exists s, Device.data self = VFloat (S754_zero s)) /\
  (Button.isPushed self = false <->
     Device.data self <> VInt 0 /\ Device.data self <> VBool false /\
     forall s, Device.data self <> VFloat (S754_zero s)) /\
  Button.isPushed (Device.set_data VNone self) = false /\
  Button.isPushed (Device.set_data (VFloat (float_of_Z 0)) self) = true /\
  Button.isPushed (Device.set_data (VFloat S754_nan) self) = false /\
  Button.isPushed (Device.set_data (VStr "0") self) = false.
Proof.
  unfold Button.isPushed.
  split; [reflexivity|]. split; [apply py_eq_zero|].
  split; [|repeat split; reflexivity].
  rewrite <- Bool.not_true_iff_false, py_eq_zero. split.
  - intros H. repeat split; try (intros E; apply H; eauto; fail).
    intros s E. apply H. eauto.
  - intros (H0 & H1 & H2) [E|[E|[s E]]]; [exact (H0 E) | exact (H1 E) | exact (H2 s E)].
Qed.

(** ** Record projection *)

(** The loop of [asDict] copies the nine attributes. *)
Lemma fill_fields (self : Device.t) :
  Device.fill self Device.fields ∅ =
    Ok (<["last_data" := Device.last_data self]>
        (<["last_read" := Device.of_stamp (Device.last_read self)]>
        (<["last_heartbeat" := Device.of_stamp (Device.last_heartbeat self)]>
        (<["data" := Device.data self]>
        (<["is_actuator" := VBool (Device.is_actuator self)]>
        (<["is_sensor" := VBool (Device.is_sensor self)]>
        (<["name" := Device.name self]>
        (<["type" := Device.type self]>
        (<["guid" := VStr (Device.guid self)]> ∅))))))))).
Proof. reflexivity. Qed.

Ltac record_lookup :=
  repeat first
    [ rewrite lookup_insert_eq; reflexivity
    | rewrite lookup_insert_ne by discriminate ].

Ltac record_dom :=
  unfold record_keys; rewrite !dom_insert_L, dom_empty_L; set_solver.

(** C7. [asDict] produces a mapping with exactly the nine keys guid, type,
    name, is_sensor, is_actuator, data, last_heartbeat, last_read and
    last_data (the source's spelling of isSensor, isActuator,
    lastHeartbeat, lastRead and lastKnownData), each holding the attribute
    of that name.  With [for_json] set, data holds what the variant's
    [_dataToJSON] hook returns, a timestamp that is present is rendered by
    [isoformat], and a timestamp that is None stays None without an error;
    an exception of the hook is the only one [asDict] can raise. *)
Theorem asDict_projection (V : Device.Variant) (self : Device.t) :
  (exists m,
     Device.asDict self false = Ok m /\
     dom m = record_keys /\
     m !! "guid" = Some (VStr (Device.guid self)) /\
     m !! "type" = Some (Device.type self) /\
     m !! "name" = Some (Device.name self) /\
     m !! "is_sensor" = Some (VBool (Device.is_sensor self)) /\
     m !! "is_actuator" = Some (VBool (Device.is_actuator self)) /\
     m !! "data" = Some (Device.data self) /\
     m !! "last_heartbeat" = Some (Device.of_stamp (Device.last_heartbeat self)) /\
     m !! "last_read" = Some (Device.of_stamp (Device.last_read self)) /\
     m !! "last_data" = Some (Device.last_data self)) /\
  match Device._dataToJSON self with
  | Ok json =>
      exists m,
        Device.asDict self true = Ok m /\
        dom m = record_keys /\
        m !! "guid" = Some (VStr (Device.guid self)) /\
        m !! "type" = Some (Device.type self) /\
        m !! "name" = Some (Device.name self) /\
        m !! "is_sensor" = Some (VBool (Device.is_sensor self)) /\
        m !! "is_actuator" = Some (VBool (Device.is_actuator self)) /\
        m !! "data" = Some json /\
        m !! "last_heartbeat" = Some (stamp_json (Device.last_heartbeat self)) /\
        m !! "last_read" = Some (stamp_json (Device.last_read self)) /\
        m !! "last_data" = Some (Device.last_data self)
  | Raise e => Device.asDict self true = Raise e
  end.
Proof.
  unfold Device.asDict. rewrite fill_fields. split.
  - eexists. split; [reflexivity|]. split; [record_dom|].
    repeat split; record_lookup.
  - destruct (Device._dataToJSON self) as [json|e]; [|reflexivity].
    eexists. split; [reflexivity|].
    destruct (Device.last_read self), (Device.last_heartbeat self); cbn;
      (split; [record_dom|]); repeat split; record_lookup.
Qed.

(** ** The relay's command-then-verify loop *)

(** Against the int of a boolean, [is] on ints is equality of values: 0
    and 1 are among the shared small integers. *)
Lemma py_is_int_b2z (n : Z) (b : bool) :
  py_is_int n (Z.b2z b) = true <-> n = Z.b2z b.
Proof.
  unfold py_is_int. destruct b; cbn; lia.
Qed.

(** One round of the loop whose fetch is readable. *)
Lemma while_round (fuel : nat) (b : bool) (count : nat) (ni : option pyval)
    (d : Device.t) (st : option bool) (w : World) (info : pyval) (n : Z) :
  (count < 10)%nat ->
  fetched (Device.api d) (Device.guid d) (gets w) = Ok info ->
  reported (Device.api d) (Device.guid d) (gets w) = Ok n ->
  Relay.while_ (S fuel) b false count ni
    ({| Relay.dev := d; Relay.state := st |}, w) =
  Relay.while_ fuel b (py_is_int n (Z.b2z b)) (S count) (Some info)
    ({| Relay.dev := d; Relay.state := st |}, with_gets (S (gets w)) w).
Proof.
  intros Hc Hf Hr. unfold reported in Hr. rewrite Hf in Hr.
  unfold fetched in Hf.
  cbn [Relay.while_]. apply Nat.ltb_lt in Hc. rewrite Hc. cbn [negb andb].
  unfold Relay.zoom, Device.api_makeGETRequest. run_M.
  destruct (py_getitem (_makeGETRequest (Device.api d)
              (DEVICES_URL (Device.api d)) (gets w)) "data")
    as [devices|]; [|discriminate].
  cbn. rewrite Hf. cbn.
  destruct (py_getitem info "last_data") as [last|]; [|discriminate].
  cbn. destruct (py_getitem last "DA") as [raw|]; [|discriminate].
  cbn. rewrite Hr. reflexivity.
Qed.

Lemma reported_fetched (a : Api) (g : string) (k : nat) (v : Z) :
  reported a g k = Ok v -> exists info, fetched a g k = Ok info.
Proof.
  unfold reported. destruct (fetched a g k) as [info|]; [eauto|discriminate].
Qed.

(** A fetch that reports an int was given a dict with a dict under
    'last_data'. *)
Lemma reported_description (a : Api) (g : string) (k : nat) (v : Z)
    (info : pyval) :
  fetched a g k = Ok info ->
  reported a g k = Ok v ->
  exists m l, info = VDict m /\ default (VDict ∅) (m !! "last_data") = VDict l.
Proof.
  intros Hf Hr. unfold reported in Hr. rewrite Hf in Hr.
  destruct info as [ | | | | | m | | ]; try discriminate.
  cbn in Hr. destruct (m !! "last_data") as [last|] eqn:E; [|discriminate].
  destruct last as [ | | | | | l | | ]; try discriminate.
  exists m, l. rewrite E. split; reflexivity.
Qed.

Lemma with_gets_twice (n k : nat) (w : World) :
  with_gets n (with_gets k w) = with_gets n w.
Proof. reflexivity. Qed.

(** The loop stops at the first fetch that reports the desired state, or
    at the fetch that brings [count] to 10, and hands back the description
    of that fetch. *)
Lemma while_run (b : bool) (d : Device.t) (st : option bool) :
  forall (k fuel count : nat) (ni : option pyval) (w : World)
         (info : pyval) (n : Z),
  (count + k < 10)%nat ->
  (k < fuel)%nat ->
  (forall j, (j < k)%nat ->
     exists v, reported (Device.api d) (Device.guid d) (gets w + j) = Ok v /\
               v <> Z.b2z b) ->
  fetched (Device.api d) (Device.guid d) (gets w + k) = Ok info ->
  reported (Device.api d) (Device.guid d) (gets w + k) = Ok n ->
  n = Z.b2z b \/ (count + k = 9)%nat ->
  Relay.while_ fuel b false count ni
    ({| Relay.dev := d; Relay.state := st |}, w) =
  (Ok (Some info),
   ({| Relay.dev := d; Relay.state := st |}, with_gets (gets w + k + 1) w)).
Proof.
  induction k as [|k IH]; intros fuel count ni w info n Hc Hfuel Hbefore Hf Hr Hlast.
  - destruct fuel as [|fuel]; [lia|].
    rewrite Nat.add_0_r in *.
    rewrite (while_round fuel b count ni d st w info n) by (assumption || lia).
    replace (gets w + 1)%nat with (S (gets w)) by lia.
    destruct Hlast as [->|Hnine].
    + assert (Hconf : py_is_int (Z.b2z b) (Z.b2z b) = true)
        by now apply py_is_int_b2z.
      rewrite Hconf. destruct fuel; reflexivity.
    + assert (count = 9%nat) by lia. subst count.
      destruct fuel; [reflexivity|].
      cbn [Relay.while_]. rewrite Bool.andb_false_r. reflexivity.
  - destruct fuel as [|fuel]; [lia|].
    destruct (Hbefore 0%nat ltac:(lia)) as (v & Hv & Hne).
    rewrite Nat.add_0_r in Hv.
    destruct (reported_fetched _ _ _ _ Hv) as (i0 & Hi0).
    rewrite (while_round fuel b count ni d st w i0 v) by (assumption || lia).
    assert (Hno : py_is_int v (Z.b2z b) = false).
    { apply Bool.not_true_iff_false. rewrite py_is_int_b2z. exact Hne. }
    rewrite Hno.
    rewrite (IH fuel (S count) (Some i0) (with_gets (S (gets w)) w) info n).
    + cbn [gets with_gets]. rewrite with_gets_twice.
      replace (S (gets w) + k + 1)%nat with (gets w + S k + 1)%nat by lia.
      reflexivity.
    + lia.
    + lia.
    + intros j Hj. cbn [gets with_gets].
      replace (S (gets w) + j)%nat with (gets w + S j)%nat by lia.
      apply Hbefore. lia.
    + cbn [gets with_gets].
      replace (S (gets w) + k)%nat with (gets w + S k)%nat by lia. exact Hf.
    + cbn [gets with_gets].
      replace (S (gets w) + k)%nat with (gets w + S k)%nat by lia. exact Hr.
    + destruct Hlast; [left; assumption | right; lia].
Qed.

(** Whatever the replies, the loop leaves the instance alone, touches
    nothing in the world but the count of fetches, and fetches at most
    [fuel] and at most [10 - count] times; it fetches at least once when
    it is entered unconfirmed with [count < 10]. *)
Lemma while_frame (b : bool) (d : Device.t) (st : option bool) :
  forall (fuel : nat) (c : bool) (count : nat) (ni : option pyval) (w : World),
  let out := Relay.while_ fuel b c count ni
               ({| Relay.dev := d; Relay.state := st |}, w) in
  fst (snd out) = {| Relay.dev := d; Relay.state := st |} /\
  (gets w <= gets (snd (snd out)))%nat /\
  (gets (snd (snd out)) <= gets w + Nat.min fuel (10 - count))%nat /\
  (c = false -> (count < 10)%nat -> (0 < fuel)%nat ->
   (gets w < gets (snd (snd out)))%nat) /\
  puts (snd (snd out)) = puts w /\
  fired (snd (snd out)) = fired w /\
  delivered (snd (snd out)) = delivered w /\
  beats (snd (snd out)) = beats w.
Proof.
  induction fuel as [|fuel IH]; intros c count ni w.
  - cbn. repeat split; lia.
  - cbn [Relay.while_].
    remember (Nat.min (S fuel) (10 - count)) as bound eqn:Hbound.
    destruct (negb c && (count <? 10)%nat) eqn:Hcond.
    + apply andb_prop in Hcond as [Hc Hlt]. apply Nat.ltb_lt in Hlt.
      assert (Hb : bound = S (Nat.min fuel (10 - S count))) by lia.
      clear Hbound.
      unfold Relay.zoom, Device.api_makeGETRequest. run_M.
      destruct (py_getitem _ "data") as [devices|];
        [|cbn; repeat split; lia].
      cbn. destruct (py_getitem devices (Device.guid d)) as [info|];
        [|cbn; repeat split; lia].
      cbn. destruct (py_getitem info "last_data") as [last|];
        [|cbn; repeat split; lia].
      cbn. destruct (py_getitem last "DA") as [raw|];
        [|cbn; repeat split; lia].
      cbn. destruct (py_int raw) as [n|]; [|cbn; repeat split; lia].
      cbn.
      change (Relay.set_dev d {| Relay.dev := d; Relay.state := st |})
        with {| Relay.dev := d; Relay.state := st |}.
      specialize (IH (py_is_int n (Z.b2z b)) (S count) (Some info)
                     (with_gets (S (gets w)) w)).
      cbv zeta in IH. cbn [gets with_gets puts fired delivered beats] in IH.
      destruct IH as (Hself & Hlo & Hhi & _ & Hputs & Hfired & Hdel & Hbeats).
      repeat split; try assumption; lia.
    + cbn. repeat split; try lia.
      intros -> Hlt _. apply Nat.ltb_lt in Hlt. rewrite Hlt in Hcond.
      discriminate.
Qed.

(** Fuel beyond [10 - count] is never used: the loop of [_change_state],
    entered with [count = 0] and fuel 10, is the source's loop. *)
Lemma while_fuel (b : bool) (d : Device.t) (st : option bool) :
  forall (f1 f2 : nat) (c : bool) (count : nat) (ni : option pyval) (w : World),
  (10 - count <= f1)%nat ->
  (10 - count <= f2)%nat ->
  Relay.while_ f1 b c count ni ({| Relay.dev := d; Relay.state := st |}, w) =
  Relay.while_ f2 b c count ni ({| Relay.dev := d; Relay.state := st |}, w).
Proof.
  assert (Hdone : forall f c count ni w, (10 <= count)%nat ->
            Relay.while_ f b c count ni
              ({| Relay.dev := d; Relay.state := st |}, w) =
            (Ok ni, ({| Relay.dev := d; Relay.state := st |}, w))).
  { intros [|f] c count ni w Hge; [reflexivity|].
    cbn [Relay.while_].
    replace (count <? 10)%nat with false
      by (symmetry; apply Nat.ltb_ge; lia).
    rewrite Bool.andb_false_r. reflexivity. }
  induction f1 as [|f1 IH]; intros f2 c count ni w H1 H2.
  - rewrite !Hdone by lia. reflexivity.
  - destruct f2 as [|f2]; [rewrite !Hdone by lia; reflexivity|].
    cbn [Relay.while_].
    destruct (negb c && (count <? 10)%nat); [|reflexivity].
    unfold Relay.zoom, Device.api_makeGETRequest. run_M.
    destruct (py_getitem _ "data") as [devices|]; [|reflexivity].
    cbn. destruct (py_getitem devices (Device.guid d)) as [info|];
      [|reflexivity].
    cbn. destruct (py_getitem info "last_data") as [last|]; [|reflexivity].
    cbn. destruct (py_getitem last "DA") as [raw|]; [|reflexivity].
    cbn. destruct (py_int raw) as [n|]; [|reflexivity].
    cbn. apply IH; lia.
Qed.

Arguments Relay.while_ : simpl never.
Arguments Relay.__init__ : simpl never.

Lemma str_of_logical_state (b : bool) :
  py_str_int (Z.b2z b) = if b then "1" else "0".
Proof. destruct b; reflexivity. Qed.

(** A command whose verification ends at fetch [k], because that fetch
    confirms or because it is the tenth: the write, the fetches, and the
    instance rebuilt from the description of fetch [k]. *)
Lemma change_state_run (b : bool) (d : Device.t) (st : option bool)
    (w : World) (k : nat) (info : pyval) (n : Z) :
  let a := Device.api d in
  let g := Device.guid d in
  (k < 10)%nat ->
  (forall j, (j < k)%nat ->
     exists v, reported a g (gets w + j) = Ok v /\ v <> Z.b2z b) ->
  fetched a g (gets w + k) = Ok info ->
  reported a g (gets w + k) = Ok n ->
  n = Z.b2z b \/ k = 9%nat ->
  exists r',
    Relay.new a g info w = Ok r' /\
    Relay._change_state b ({| Relay.dev := d; Relay.state := st |}, w) =
      (Ok tt,
       (r', with_gets (gets w + k + 1)
              (with_puts (puts w ++ [(getDeviceURL a g, command_payload b)]) w))).
Proof.
  intros a g Hk Hbefore Hf Hr Hlast.
  destruct (reported_description a g _ n info Hf Hr) as (m & l & -> & Hl).
  unfold Relay._change_state, Relay.zoom, Device.api_makePUTRequest. run_M.
  fold a g.
  change (Relay.set_dev d {| Relay.dev := d; Relay.state := st |})
    with {| Relay.dev := d; Relay.state := st |}.
  rewrite str_of_logical_state. fold (command_payload b).
  set (w1 := with_puts (puts w ++ [(getDeviceURL a g, command_payload b)]) w).
  rewrite (while_run b d st k 10 0 None w1 (VDict m) n);
    try assumption; try lia.
  cbn [Relay.dev fst snd].
  destruct (relay_init_is_new a g m l {| Relay.dev := d; Relay.state := st |}
              (with_gets (gets w1 + k + 1) w1) w Hl) as (r' & Hnew & Hinit).
  exists r'. split; [exact Hnew|]. fold a g. rewrite Hinit. reflexivity.
Qed.

(** [Relay.__init__] on a live instance: the world is not touched; data is
    reset to None unless [info] is not a dict (the call then raises before
    reaching it); and when the call returns, the callbacks are empty and
    data, last_heartbeat and last_read are None. *)
Lemma relay_init_frame (a : Api) (g : string) (info : pyval) (r : Relay.t)
    (w : World) :
  let out := Relay.__init__ a g info (r, w) in
  let d' := Relay.dev (fst (snd out)) in
  snd (snd out) = w /\
  (Device.data d' = VNone \/ Device.data d' = Device.data (Relay.dev r)) /\
  (fst out = Ok tt ->
   Device._callbacks d' = ∅ /\ Device.data d' = VNone /\
   Device.last_heartbeat d' = None /\ Device.last_read d' = None).
Proof.
  destruct info as [ | | | | | m | | ];
    try (cbn; split; [reflexivity|]; split; [right; reflexivity|];
         intros H; discriminate H).
  unfold Relay.__init__, Relay.zoom, bind. cbn [fst snd].
  rewrite device_init_dict. run_M.
  destruct (default (VDict ∅) (m !! "last_data")) as [ | | | | | l | | ];
    try (cbn; split; [reflexivity|]; split; [left; reflexivity|];
         intros H; discriminate H).
  cbn. destruct (py_eq _ (VStr "0")); [|destruct (py_eq _ (VStr "1"))];
    cbn; repeat split; auto.
Qed.

(** Whatever the replies, a command sends one write, fetches between 1 and
    10 times, fires nothing, polls nothing, and either resets data to None
    or leaves it. *)
Lemma change_state_frame (b : bool) (d : Device.t) (st : option bool)
    (w : World) :
  let out := Relay._change_state b
               ({| Relay.dev := d; Relay.state := st |}, w) in
  let w' := snd (snd out) in
  let d' := Relay.dev (fst (snd out)) in
  (gets w < gets w')%nat /\ (gets w' <= gets w + 10)%nat /\
  puts w' = puts w ++ [(getDeviceURL (Device.api d) (Device.guid d),
                        command_payload b)] /\
  fired w' = fired w /\ delivered w' = delivered w /\ beats w' = beats w /\
  (Device.data d' = VNone \/ Device.data d' = Device.data d).
Proof.
  unfold Relay._change_state, Relay.zoom, Device.api_makePUTRequest. run_M.
  change (Relay.set_dev d {| Relay.dev := d; Relay.state := st |})
    with {| Relay.dev := d; Relay.state := st |}.
  rewrite str_of_logical_state. fold (command_payload b).
  set (w1 := with_puts _ w).
  pose proof (while_frame b d st 10 false 0 None w1) as Hframe.
  cbv zeta in Hframe.
  destruct (Relay.while_ 10 b false 0 None
              ({| Relay.dev := d; Relay.state := st |}, w1))
    as [[ni|e] [r1 w2]]; cbn [fst snd] in Hframe |- *;
    destruct Hframe as (-> & Hlo & Hhi & Hpos & Hputs & Hfired & Hdel & Hbeats);
    specialize (Hpos eq_refl ltac:(lia) ltac:(lia));
    change (gets w1) with (gets w) in *; change (puts w1) with
      (puts w ++ [(getDeviceURL (Device.api d) (Device.guid d),
                   command_payload b)]) in *;
    change (fired w1) with (fired w) in *;
    change (delivered w1) with (delivered w) in *;
    change (beats w1) with (beats w) in *.
  - destruct ni as [info|].
    + pose proof (relay_init_frame (Device.api d) (Device.guid d) info
                    {| Relay.dev := d; Relay.state := st |} w2) as Hinit.
      cbv zeta in Hinit. cbn [Relay.dev] in Hinit.
      destruct Hinit as (Hw & Hdata & _).
      cbn [fst snd Relay.dev]. rewrite Hw.
      repeat split; try assumption; lia.
    + cbn. repeat split; try assumption; try lia. right; reflexivity.
  - cbn. repeat split; try assumption; try lia. right; reflexivity.
Qed.



(** C10. When [turn_on] or [turn_off] returns, the constructor has been
    re-run on the instance: the callback registry is empty, so that an
    event fired afterwards reaches no callback subscribed before the
    command, and data, last_heartbeat and last_read are None. *)
Theorem change_state_resets_instance (b : bool) (r r' : Relay.t)
    (w w' : World) :
  (if b then Relay.turn_on else Relay.turn_off) (r, w) = (Ok tt, (r', w')) ->
  Device._callbacks (Relay.dev r') = ∅ /\
  Device.data (Relay.dev r') = VNone /\
  Device.last_heartbeat (Relay.dev r') = None /\
  Device.last_read (Relay.dev r') = None /\
  forall event args,
    delivered (snd (snd (Relay.zoom (Device._fire event args) (r', w')))) =
    delivered w'.
Proof.
  replace (if b then Relay.turn_on else Relay.turn_off)
    with (Relay._change_state b) by (destruct b; reflexivity).
  destruct r as [d st].
  unfold Relay._change_state, Relay.zoom, Device.api_makePUTRequest. run_M.
  change (Relay.set_dev d {| Relay.dev := d; Relay.state := st |})
    with {| Relay.dev := d; Relay.state := st |}.
  destruct (Relay.while_ 10 b false 0 None _) as [[[info|]|e] [r1 w1]];
    try discriminate.
  intros Hinit.
  pose proof (relay_init_frame (Device.api (Relay.dev r1))
                (Device.guid (Relay.dev r1)) info r1 w1) as Hframe.
  cbv zeta in Hframe. cbn [fst snd] in Hinit. rewrite Hinit in Hframe.
  cbn [fst snd] in Hframe.
  destruct Hframe as (_ & _ & Hreset).
  destruct (Hreset eq_refl) as (Hcb & Hdata & Hhb & Hlr).
  repeat split; try assumption.
  intros event args. unfold Device._fire. run_M. rewrite Hcb.
  rewrite lookup_empty. cbn. apply app_nil_r.
Qed.



(** The sample relay, subscribed and polled, then turned on. *)
Lemma change_state_resets_instance_witness :
  Device._callbacks (Relay.dev (fst Sample.polled)) !! Device.CHANGE
    = Some [7%nat] /\
  Device.data (Relay.dev (fst Sample.polled)) = VStr "1" /\
  Device._callbacks (Relay.dev (fst Sample.commanded)) = ∅ /\
  Device.data (Relay.dev (fst Sample.commanded)) = VNone /\
  Device.last_heartbeat (Relay.dev (fst Sample.commanded)) = None /\
  Device.last_read (Relay.dev (fst Sample.commanded)) = None.
Proof.
  split; [vm_compute; reflexivity|]. split; [vm_compute; reflexivity|].
  destruct (change_state_resets_instance true
              (fst Sample.polled) (fst Sample.commanded)
              (snd Sample.polled) (snd Sample.commanded))
    as (Hcb & Hdata & Hhb & Hlr & _).
  - vm_compute; reflexivity.
  - repeat split; assumption.
Defined.

(** ** What may change the data *)


(** An inherited method run on a Relay touches its Device part only. *)
Lemma zoom_self {A} (m : M Device.t A) (r : Relay.t) (w : World) :
  fst (snd ((Relay.zoom m ;; ret tt) (r, w))) =
  Relay.set_dev (fst (snd (m (Relay.dev r, w)))) r.
Proof.
  unfold bind, Relay.zoom, ret. cbn [fst snd].
  destruct (m (Relay.dev r, w)) as [[x|e] [d' w']]; reflexivity.
Qed.


(** What a poll may touch, whatever the reply: of the instance only data,
    last_heartbeat and last_read; of the world only the count of polls,
    the clock and the events. *)
Lemma heartbeat_frame (V : Device.Variant) (silent : bool) (d : Device.t)
    (w : World) :
  let out := Device.heartbeat silent (d, w) in
  let d' := fst (snd out) in
  let w' := snd (snd out) in
  (Device.guid d' = Device.guid d /\ Device.api d' = Device.api d /\
   Device.type d' = Device.type d /\ Device.name d' = Device.name d /\
   Device.is_sensor d' = Device.is_sensor d /\
   Device.is_actuator d' = Device.is_actuator d /\
   Device.last_data d' = Device.last_data d /\
   Device._callbacks d' = Device._callbacks d) /\
  (beats w' = S (beats w) /\ gets w' = gets w /\ puts w' = puts w /\
   hooks w' = hooks w) /\
  ((fired w' = fired w /\ delivered w' = delivered w) \/
   (silent = false /\ poll_succeeds d w)).
Proof.
  unfold poll_succeeds, poll_reply.
  unfold Device.heartbeat, Device.api_getDeviceHeartbeat, Device._fire. run_M.
  destruct (py_getitem _ "id") as [id|]; [|cbn; auto 20].
  cbn. destruct (py_eq id (VInt 0)) eqn:Hz; [|cbn; auto 20].
  cbn. destruct (py_getitem _ "data") as [payload|]; [|cbn; auto 20].
  cbn. destruct (py_getitem payload "DA") as [raw|]; [|cbn; auto 20].
  cbn. destruct (Device._parse _ raw) as [new|]; [|cbn; auto 20].
  cbn. destruct (py_getitem payload "timestamp") as [last|]; [|cbn; auto 20].
  cbn. destruct (py_div_1000 last) as [secs|]; [|cbn; auto 20].
  cbn. destruct (utcfromtimestamp secs) as [stamp|]; [|cbn; auto 20].
  cbn. destruct silent; cbn; [auto 20|].
  destruct (py_ne _ _); cbn; (split; [auto 20|]); (split; [auto 20|]);
    right; eauto.
Qed.

(** [setColor] leaves the data alone, whether the color can be built or
    not. *)
Lemma setColor_data (Color_hex : list pyval -> result pyval) (WHITE : pyval)
    (truth : pyval -> bool) (args : list pyval) (r : RGBLED.t) (w : World) :
  Device.data (RGBLED.dev
    (fst (snd (RGBLED.setColor Color_hex WHITE truth args (r, w)))))
  = Device.data (RGBLED.dev r).
Proof.
  unfold RGBLED.setColor, RGBLED.zoom, Device.api_makePUTRequest. run_M.
  destruct (truth (RGBLED._last_color r)); cbn;
    destruct (Color_hex args); reflexivity.
Qed.

(** X20. The commands of an RGBLED write to the transport and remember a
    color; they leave the data alone. *)
Lemma rgbled_commands_keep_data (Color_hex : list pyval -> result pyval)
    (BLACK WHITE : pyval) (truth : pyval -> bool) (args : list pyval)
    (r : RGBLED.t) (w : World) :
  let data_after (m : M RGBLED.t unit) :=
    Device.data (RGBLED.dev (fst (snd (m (r, w))))) in
  data_after (RGBLED.setColor Color_hex WHITE truth args)
    = Device.data (RGBLED.dev r) /\
  data_after (RGBLED.turnOn Color_hex WHITE truth)
    = Device.data (RGBLED.dev r) /\
  data_after (RGBLED.turnOff Color_hex BLACK WHITE truth)
    = Device.data (RGBLED.dev r).
Proof.
  cbv zeta. split; [apply setColor_data|]. split.
  - unfold RGBLED.turnOn, bind, get_self. cbn [fst snd]. apply setColor_data.
  - unfold RGBLED.turnOff, bind, get_self, update_self. cbn [fst snd].
    rewrite setColor_data. reflexivity.
Qed.

Lemma states_head (ops : list Relay.op) (s : Relay.t * World) :
  Relay.states ops s !! 0%nat = Some s.
Proof. destruct ops; reflexivity. Qed.










(** The same on the other classes of the sample hub: a TemperatureSensor
    is polled and reads 21.5, then every call that is not a poll leaves
    its data alone; an RGBLED that is switched off and on, and a Button
    that is asked whether it is pushed, hold the data of their last poll. *)
Example data_kept_on_other_classes :
  let data_along x ops :=
    map (fun s => Device.data (Instance.dev (fst s)))
        (Instance.states Sample.units ops (x, Sample.start)) in
  let t := VFloat (SFdiv prec emax (float_of_Z 43) (float_of_Z 2)) in
  data_along (Instance.Plain Instance.CTemperatureSensor Sample.float_device)
    [Instance.Heartbeat false; Instance.AsDict true; Instance.OnHeartbeat 3%nat;
     Instance.GetWebhookURL; Instance.Turn_on; Instance.IsPushed]
    = [VNone; t; t; t; t; t; t] /\
  data_along (Instance.Led Sample.led)
    [Instance.Heartbeat false; Instance.TurnOff; Instance.TurnOn;
     Instance.SetColor [VStr "FF0000"]; Instance.SetColor []]
    = [VNone; VStr "1"; VStr "1"; VStr "1"; VStr "1"; VStr "1"] /\
  data_along (Instance.Plain Instance.CButton Sample.odd_device)
    [Instance.Heartbeat false; Instance.Heartbeat false; Instance.IsPushed;
     Instance.Heartbeat false; Instance.IsPushed; Instance.Pulse 2 10]
    = [VNone; VNone; VStr "0"; VStr "0"; VInt 0; VInt 0; VInt 0].
Proof.
  cbv zeta.
  split; [vm_compute; reflexivity|]. split; vm_compute; reflexivity.
Qed.

(** ** Scenarios on the sample hub *)

(** [turn_on] when the first fetch already shows "1": one write encoding
    True, one fetch, and the relay is On. *)
Example turn_on_confirmed_at_once :
  let out := Relay.turn_on (Sample.relay (VStr "0"), with_gets 3 Sample.start) in
  fst out = Ok tt /\
  puts (snd (snd out)) = [("device/g1", command_payload true)] /\
  gets (snd (snd out)) = 4%nat /\
  Relay.state (fst (snd out)) = Some true /\
  fst (Relay.is_turned_on (snd out)) = Ok true.
Proof. vm_compute. repeat split; reflexivity. Qed.

(** [turn_off] when the directory keeps showing "1": ten fetches, no
    exception, and the relay is still On. *)
Example turn_off_unconfirmed :
  let out := Relay.turn_off (Sample.relay (VStr "1"), with_gets 3 Sample.start) in
  fst out = Ok tt /\
  gets (snd (snd out)) = 13%nat /\
  Relay.state (fst (snd out)) = Some true /\
  fst (Relay.is_turned_off (snd out)) = Ok false.
Proof. vm_compute. repeat split; reflexivity. Qed.

(** The record of the polled sample relay, for JSON. *)
Example asDict_json_polled :
  match Device.asDict (variant := Device.base)
          (Relay.dev (fst Sample.polled)) true with
  | Ok m =>
      m !! "data" = Some (VStr "1") /\
      m !! "last_read" = Some (VStr "2013-03-01T00:00:00") /\
      m !! "last_heartbeat" = Some (VStr "2013-03-01T00:00:00") /\
      m !! "is_actuator" = Some (VBool true) /\
      m !! "guid" = Some (VStr "g1")
  | Raise _ => False
  end.
Proof. vm_compute. repeat split; reflexivity. Qed.

(** A reply with a success status but no timestamp: the poll raises with
    data and last_heartbeat already updated and no event fired. *)
Example heartbeat_without_timestamp :
  let w := with_beats 3 Sample.start in
  let reply := VDict {[ "id" := VInt 0; "data" := VDict {[ "DA" := VStr "0" ]} ]} in
  let hub := {| getDeviceHeartbeat := fun _ _ => reply;
                getDeviceURL := getDeviceURL Sample.hub;
                DEVICES_URL := DEVICES_URL Sample.hub;
                _makeGETRequest := _makeGETRequest Sample.hub;
                setDeviceWebhookURL := setDeviceWebhookURL Sample.hub;
                getDeviceWebhookURL := getDeviceWebhookURL Sample.hub;
                clearDeviceWebhookURL := clearDeviceWebhookURL Sample.hub |} in
  let out := Device.heartbeat (variant := Device.base) false
               (Device.set_api hub Sample.device, w) in
  fst out = Raise (KeyError "timestamp") /\
  Device.data (fst (snd out)) = VStr "0" /\
  Device.last_read (fst (snd out)) = None /\
  fired (snd (snd out)) = [].
Proof. vm_compute. repeat split; reflexivity. Qed.

(** A fetch whose raw state is not an int literal: [int] raises, and the
    command raises with it after that fetch. *)
Example turn_on_unreadable_state :
  let hub := {| getDeviceHeartbeat := getDeviceHeartbeat Sample.hub;
                getDeviceURL := getDeviceURL Sample.hub;
                DEVICES_URL := DEVICES_URL Sample.hub;
                _makeGETRequest := fun _ _ =>
                  VDict {[ "data" :=
                    VDict {[ "g1" := Sample.description (VStr "x") ]} ]};
                setDeviceWebhookURL := setDeviceWebhookURL Sample.hub;
                getDeviceWebhookURL := getDeviceWebhookURL Sample.hub;
                clearDeviceWebhookURL := clearDeviceWebhookURL Sample.hub |} in
  let r := Relay.set_dev (Device.set_api hub Sample.device)
             (Sample.relay (VStr "0")) in
  let out := Relay.turn_on (r, Sample.start) in
  fst out = Raise ValueError /\
  gets (snd (snd out)) = 1%nat /\
  Relay.state (fst (snd out)) = Some false.
Proof. vm_compute. repeat split; reflexivity. Qed.

(** * Further properties of the code *)

(** ** More on polling *)

Lemma hub_stamp_ok (payload : pyval) (stamp : datetime) :
  hub_stamp payload = Ok stamp ->
  exists last secs,
    py_getitem payload "timestamp" = Ok last /\
    py_div_1000 last = Ok secs /\
    utcfromtimestamp secs = Ok stamp.
Proof.
  unfold hub_stamp.
  destruct (py_getitem payload "timestamp") as [last|]; [|discriminate].
  destruct (py_div_1000 last) as [secs|] eqn:Hdiv; [|discriminate].
  intros Hs. exists last, secs. auto.
Qed.

(** X1. A silent poll that the transport marks successful updates data,
    last_heartbeat and last_read like any other and returns the same
    pair, but fires no event and reaches no callback. *)
Theorem heartbeat_silent_is_quiet
    (V : Device.Variant) (self : Device.t) (w : World)
    (id payload raw new : pyval) (stamp : datetime) :
  let now := utcnow_at w (ticks w) in
  py_getitem (poll_reply self w) "id" = Ok id ->
  py_eq id (VInt 0) = true ->
  py_getitem (poll_reply self w) "data" = Ok payload ->
  py_getitem payload "DA" = Ok raw ->
  Device._parse (Device.set_last_heartbeat (Some now) self) raw = Ok new ->
  hub_stamp payload = Ok stamp ->
  exists self' w',
    Device.heartbeat true (self, w) = (Ok (Some stamp, new), (self', w')) /\
    Device.data self' = new /\
    Device.last_heartbeat self' = Some now /\
    Device.last_read self' = Some stamp /\
    fired w' = fired w /\
    delivered w' = delivered w.
Proof.
  intros now Hid Hz Hp Hraw Hparse Hstamp.
  destruct (hub_stamp_ok payload stamp Hstamp) as (last & secs & Hts & Hdiv & Hs).
  pose proof (heartbeat_success V self w id payload raw new last secs stamp
                Hid Hz Hp Hraw Hparse Hts Hdiv Hs true) as Hrun.
  cbv zeta in Hrun. cbv iota in Hrun.
  eexists _, _. split; [exact Hrun|]. cbn. auto 10.
Qed.

(** The first poll of the sample relay, made silently. *)
Lemma heartbeat_silent_is_quiet_witness :
  exists self' w',
    Device.heartbeat (variant := Device.base) true
      (Sample.device, Sample.start) =
      (Ok (Some (mkDatetime 2013 3 1 0 0 0 0), VStr "1"), (self', w')) /\
    Device.data self' = VStr "1" /\
    Device.last_heartbeat self' = Some (mkDatetime 2013 3 1 0 0 0 0) /\
    Device.last_read self' = Some (mkDatetime 2013 3 1 0 0 0 0) /\
    fired w' = fired Sample.start /\
    delivered w' = delivered Sample.start.
Proof.
  apply (heartbeat_silent_is_quiet Device.base Sample.device Sample.start
           (VInt 0)
           (VDict {[ "DA" := VStr "1"; "timestamp" := VInt 1362096000123 ]})
           (VStr "1") (VStr "1") (mkDatetime 2013 3 1 0 0 0 0));
    vm_compute; reflexivity.
Defined.

(** X2. A poll that the transport marks successful but that raises (the
    payload lacks 'DA' or 'timestamp', the hook or the conversion of the
    timestamp fails) is not undone: last_heartbeat already holds the local
    time of the poll, last_read keeps its old value, and data is either
    untouched or already the newly parsed value; no event is fired. *)
Theorem heartbeat_raising_is_partial
    (V : Device.Variant) (self self' : Device.t) (w w' : World)
    (silent : bool) (e : exn) :
  poll_succeeds self w ->
  Device.heartbeat silent (self, w) = (Raise e, (self', w')) ->
  Device.last_heartbeat self' = Some (utcnow_at w (ticks w)) /\
  Device.last_read self' = Device.last_read self /\
  (Device.data self' = Device.data self \/
   exists payload raw,
     py_getitem (poll_reply self w) "data" = Ok payload /\
     py_getitem payload "DA" = Ok raw /\
     Device._parse
       (Device.set_last_heartbeat (Some (utcnow_at w (ticks w))) self) raw
       = Ok (Device.data self')) /\
  ticks w' = S (ticks w) /\
  fired w' = fired w /\
  delivered w' = delivered w.
Proof.
  intros (id & Hid & Hz). unfold poll_reply in *.
  unfold Device.heartbeat, Device.api_getDeviceHeartbeat, Device._fire. run_M.
  rewrite Hid. cbn. rewrite Hz. cbn.
  destruct (py_getitem _ "data") as [payload|] eqn:Hp;
    [|cbn; intros H; injection H as <- <- <-; cbn; auto 10].
  cbn. destruct (py_getitem payload "DA") as [raw|] eqn:Hraw;
    [|cbn; intros H; injection H as <- <- <-; cbn; auto 10].
  cbn. destruct (Device._parse _ raw) as [new|] eqn:Hparse;
    [|cbn; intros H; injection H as <- <- <-; cbn; auto 10].
  cbn. destruct (py_getitem payload "timestamp") as [last|];
    [|cbn; intros H; injection H as <- <- <-; cbn; eauto 12].
  cbn. destruct (py_div_1000 last) as [secs|];
    [|cbn; intros H; injection H as <- <- <-; cbn; eauto 12].
  cbn. destruct (utcfromtimestamp secs) as [stamp|];
    [|cbn; intros H; injection H as <- <- <-; cbn; eauto 12].
  cbn. destruct silent; cbn; [discriminate|].
  destruct (py_ne _ _); cbn; discriminate.
Qed.

(** X3. A reply from which no status can be read (no 'id' key, or not a
    dict) makes the poll raise at once: the instance is untouched, the
    clock is not read and no event is fired. *)
Theorem heartbeat_unreadable_status
    (V : Device.Variant) (self : Device.t) (w : World) (silent : bool)
    (e : exn) :
  py_getitem (poll_reply self w) "id" = Raise e ->
  Device.heartbeat silent (self, w) =
    (Raise e, (self, with_beats (S (beats w)) w)).
Proof.
  intros Hid. unfold poll_reply in *.
  unfold Device.heartbeat, Device.api_getDeviceHeartbeat. run_M.
  rewrite Hid. reflexivity.
Qed.

(** ** Python's [==] on the modelled values *)

Lemma py_eq_list_nil : py_eq (VList []) (VList []) = true.
Proof. reflexivity. Qed.










(** NaN does not equal itself. *)
Lemma py_ne_nan : py_ne (VFloat S754_nan) (VFloat S754_nan) = true.
Proof. reflexivity. Qed.

(** The second reply of the misbehaving hub has no timestamp. *)
Lemma heartbeat_raising_is_partial_witness :
  let out := Device.heartbeat (variant := Device.base) false
               (Sample.odd_device, with_beats 1 Sample.start) in
  fst out = Raise (KeyError "timestamp") /\
  Device.last_heartbeat (fst (snd out)) = Some (mkDatetime 2013 3 1 0 0 0 0) /\
  Device.last_read (fst (snd out)) = None /\
  Device.data (fst (snd out)) = VStr "0" /\
  fired (snd (snd out)) = [].
Proof.
  cbv zeta.
  destruct (heartbeat_raising_is_partial Device.base Sample.odd_device
              (fst (snd (Device.heartbeat (variant := Device.base) false
                           (Sample.odd_device, with_beats 1 Sample.start))))
              (with_beats 1 Sample.start)
              (snd (snd (Device.heartbeat (variant := Device.base) false
                           (Sample.odd_device, with_beats 1 Sample.start))))
              false (KeyError "timestamp"))
    as (Hhb & Hlr & _ & _ & Hfired & _).
  - exists (VInt 0). split; vm_compute; reflexivity.
  - vm_compute; reflexivity.
  - split; [vm_compute; reflexivity|]. split; [exact Hhb|].
    split; [exact Hlr|]. split; [vm_compute; reflexivity | exact Hfired].
Defined.

(** The first reply of the misbehaving hub is None. *)
Lemma heartbeat_unreadable_status_witness :
  Device.heartbeat (variant := Device.base) false
    (Sample.odd_device, Sample.start) =
  (Raise TypeError, (Sample.odd_device, with_beats 1 Sample.start)).
Proof.
  apply (heartbeat_unreadable_status Device.base Sample.odd_device
           Sample.start false TypeError).
  vm_compute; reflexivity.
Defined.


(** A poll that reads NaN while the instance holds NaN fires CHANGE all
    the same. *)
Lemma heartbeat_nan_reading_fires_change
    (V : Device.Variant) (self : Device.t) (w : World)
    (id payload raw : pyval) (stamp : datetime) :
  let now := utcnow_at w (ticks w) in
  Device.data self = VFloat S754_nan ->
  py_getitem (poll_reply self w) "id" = Ok id ->
  py_eq id (VInt 0) = true ->
  py_getitem (poll_reply self w) "data" = Ok payload ->
  py_getitem payload "DA" = Ok raw ->
  Device._parse (Device.set_last_heartbeat (Some now) self) raw
    = Ok (VFloat S754_nan) ->
  hub_stamp payload = Ok stamp ->
  exists self' w',
    Device.heartbeat false (self, w) =
      (Ok (Some stamp, VFloat S754_nan), (self', w')) /\
    fired w' = fired w ++ [(Device.HEARTBEAT, [VFloat S754_nan]);
                           (Device.CHANGE, [VFloat S754_nan; VFloat S754_nan])].
Proof.
  intros now Hdata Hid Hz Hp Hraw Hparse Hstamp.
  destruct (hub_stamp_ok payload stamp Hstamp) as (last & secs & Hts & Hdiv & Hs).
  pose proof (heartbeat_success V self w id payload raw (VFloat S754_nan)
                last secs stamp Hid Hz Hp Hraw Hparse Hts Hdiv Hs false) as Hrun.
  cbv zeta in Hrun. rewrite Hdata, py_ne_nan in Hrun. cbv iota in Hrun.
  eexists _, _. split; [exact Hrun|]. reflexivity.
Qed.


(** The datetime built from seconds and microseconds that are in range. *)
Lemma datetime_of_fields (secs us : Z) (stamp : datetime) :
  datetime_of secs us = Ok stamp ->
  microsecond stamp = us /\ 0 <= us < 1000000 /\
  1 <= year stamp <= 9999 /\
  0 <= hour stamp < 24 /\ 0 <= minute stamp < 60 /\ 0 <= second stamp < 60 /\
  hour stamp * 3600 + minute stamp * 60 + second stamp = secs mod 86400.
Proof.
  unfold datetime_of.
  destruct (civil_from_days (secs / 86400)) as [[y m] d].
  destruct ((1 <=? y) && (y <=? 9999) && (0 <=? us) && (us <? 1000000)) eqn:Hy;
    [|discriminate].
  intros H. injection H as <-. cbn [microsecond year hour minute second].
  apply andb_prop in Hy as [Hy H4]. apply andb_prop in Hy as [Hy H3].
  apply andb_prop in Hy as [H1 H2].
  apply Z.leb_le in H1. apply Z.leb_le in H2. apply Z.leb_le in H3.
  apply Z.ltb_lt in H4.
  pose proof (Z.mod_pos_bound secs 86400 ltac:(lia)) as Hr.
  generalize dependent (secs mod 86400). intros r Hr.
  split; [reflexivity|]. split; [lia|]. split; [lia|].
  repeat split; Z.to_euclidean_division_equations; lia.
Qed.

Lemma utcfromtimestamp_fields (secs : pyval) (stamp : datetime) :
  utcfromtimestamp secs = Ok stamp ->
  0 <= microsecond stamp < 1000000 /\
  1 <= year stamp <= 9999 /\
  0 <= hour stamp < 24 /\ 0 <= minute stamp < 60 /\ 0 <= second stamp < 60 /\
  (forall z, num_of secs = Some z ->
     microsecond stamp = 0 /\
     hour stamp * 3600 + minute stamp * 60 + second stamp = z mod 86400).
Proof.
  unfold utcfromtimestamp.
  assert (Hnum : forall z, num_of secs = Some z ->
            match float_of_Z z with
            | S754_infinity _ => Raise OverflowError
            | _ => datetime_of z 0
            end = Ok stamp ->
            0 <= microsecond stamp < 1000000 /\
            1 <= year stamp <= 9999 /\
            0 <= hour stamp < 24 /\ 0 <= minute stamp < 60 /\
            0 <= second stamp < 60 /\
            (forall z', num_of secs = Some z' ->
               microsecond stamp = 0 /\
               hour stamp * 3600 + minute stamp * 60 + second stamp
               = z' mod 86400)).
  { intros z Hz H.
    assert (Hd : datetime_of z 0 = Ok stamp)
      by (destruct (float_of_Z z); [exact H | discriminate H | exact H | exact H]).
    destruct (datetime_of_fields z 0 stamp Hd) as (Hus & _ & Hy & Hh & Hm & Hs & Hsum).
    rewrite Hus. repeat split; try lia.
    rewrite Hz in H0. injection H0 as <-. exact Hsum. }
  destruct secs as [ | b | z | | | | | f ]; try discriminate.
  - apply (Hnum (Z.b2z b)). reflexivity.
  - apply (Hnum z). reflexivity.
  - clear Hnum. destruct (float_seconds f) as [[secs us]|]; [|discriminate].
    intros Hd.
    destruct (datetime_of_fields secs us stamp Hd) as (Hus & Hr & Hy & Hh & Hm & Hs & _).
    rewrite Hus. repeat split; try lia; discriminate.
Qed.

(** X5. After a poll that the transport marks successful and that
    returns, last_read is never None: it is the hub's timestamp divided by
    1000 as a UTC datetime, a time of day in range in a year from 1 to
    9999 with its microseconds in range, and it is the first component of
    the pair returned.  The timestamp is a number; when it is an int (or a
    bool) the division is the integer one, the milliseconds are dropped
    and last_read is a whole second; a float timestamp is divided without
    truncation and keeps them. *)
Theorem heartbeat_last_read_stamp
    (V : Device.Variant) (self self' : Device.t) (w w' : World)
    (silent : bool) (v : option datetime * pyval) :
  poll_succeeds self w ->
  Device.heartbeat silent (self, w) = (Ok v, (self', w')) ->
  exists payload millis stamp,
    py_getitem (poll_reply self w) "data" = Ok payload /\
    py_getitem payload "timestamp" = Ok millis /\
    hub_stamp payload = Ok stamp /\
    Device.last_read self' = Some stamp /\
    fst v = Some stamp /\
    0 <= microsecond stamp < 1000000 /\
    1 <= year stamp <= 9999 /\
    0 <= hour stamp < 24 /\ 0 <= minute stamp < 60 /\ 0 <= second stamp < 60 /\
    ((exists t, num_of millis = Some t) \/ (exists f, millis = VFloat f)) /\
    (forall t, num_of millis = Some t ->
       utcfromtimestamp (VInt (t / 1000)) = Ok stamp /\
       microsecond stamp = 0 /\
       hour stamp * 3600 + minute stamp * 60 + second stamp
       = (t / 1000) mod 86400) /\
    (forall f, millis = VFloat f ->
       utcfromtimestamp (VFloat (SFdiv prec emax f (float_of_Z 1000)))
       = Ok stamp).
Proof.
  intros (id & Hid & Hz) Hrun.
  destruct (heartbeat_returns_readable V self w id silent v (self', w')
              Hid Hz Hrun)
    as (payload & raw & new & last & secs & stamp
        & Hp & Hraw & Hparse & Hts & Hdiv & Hs).
  pose proof (heartbeat_success V self w id payload raw new last secs stamp
                Hid Hz Hp Hraw Hparse Hts Hdiv Hs silent) as Hrun'.
  cbv zeta in Hrun'. rewrite Hrun in Hrun'.
  injection Hrun' as Hv Hself Hw. subst v self'.
  exists payload, last, stamp.
  destruct (utcfromtimestamp_fields secs stamp Hs)
    as (Hus & Hy & Hh & Hm & Hsec & Hint).
  split; [exact Hp|]. split; [exact Hts|].
  split; [unfold hub_stamp; rewrite Hts, Hdiv; exact Hs|].
  split; [reflexivity|]. split; [reflexivity|].
  split; [exact Hus|]. split; [exact Hy|]. split; [exact Hh|].
  split; [exact Hm|]. split; [exact Hsec|].
  unfold py_div_1000 in Hdiv. split; [|split].
  - destruct last as [ | b | z | | | | | f ]; try discriminate Hdiv;
      cbn [num_of]; eauto.
  - intros t Ht.
    assert (Hsecs : secs = VInt (t / 1000)).
    { destruct last as [ | b | z | | | | | f ]; try discriminate Ht;
        cbn [num_of] in Hdiv, Ht; injection Ht as <-;
        injection Hdiv as <-; reflexivity. }
    subst secs. split; [exact Hs|]. apply (Hint (t / 1000)). reflexivity.
  - intros f ->. injection Hdiv as <-. exact Hs.
Qed.

(** The first poll of the sample relay. *)
Lemma heartbeat_last_read_stamp_witness :
  let out := Device.heartbeat (variant := Device.base) false
               (Sample.device, Sample.start) in
  fst out = Ok (Some (mkDatetime 2013 3 1 0 0 0 0), VStr "1") /\
  exists payload millis stamp,
    py_getitem (poll_reply Sample.device Sample.start) "data" = Ok payload /\
    py_getitem payload "timestamp" = Ok millis /\
    hub_stamp payload = Ok stamp /\
    Device.last_read (fst (snd out)) = Some stamp /\
    Some (mkDatetime 2013 3 1 0 0 0 0) = Some stamp /\
    0 <= microsecond stamp < 1000000.
Proof.
  cbv zeta. split; [vm_compute; reflexivity|].
  destruct (heartbeat_last_read_stamp Device.base Sample.device
           (fst (snd (Device.heartbeat (variant := Device.base) false
                        (Sample.device, Sample.start))))
           Sample.start
           (snd (snd (Device.heartbeat (variant := Device.base) false
                        (Sample.device, Sample.start))))
           false (Some (mkDatetime 2013 3 1 0 0 0 0), VStr "1"))
    as (payload & millis & stamp & Hp & Hts & Hst & Hlr & Hv & Hus & _).
  - exists (VInt 0). split; vm_compute; reflexivity.
  - vm_compute; reflexivity.
  - exists payload, millis, stamp. auto 10.
Defined.

(** ** What each public call of a Relay may touch *)

Lemma zoom_world {A} (m : M Device.t A) (r : Relay.t) (w : World) :
  snd (snd ((Relay.zoom m ;; ret tt) (r, w))) = snd (snd (m (Relay.dev r, w))).
Proof.
  unfold bind, Relay.zoom, ret. cbn [fst snd].
  destruct (m (Relay.dev r, w)) as [[x|e] [d' w']]; reflexivity.
Qed.

(** [Relay.__init__] called with the instance's own api and guid keeps
    them, whether it returns or raises. *)
Lemma relay_init_identity (a : Api) (g : string) (info : pyval) (r : Relay.t)
    (w : World) :
  let d' := Relay.dev (fst (snd (Relay.__init__ a g info (r, w)))) in
  Device.guid d' = g /\ Device.api d' = a.
Proof.
  destruct info as [ | | | | | m | | ]; try (cbn; split; reflexivity).
  unfold Relay.__init__, Relay.zoom, bind. cbn [fst snd].
  rewrite device_init_dict. run_M.
  destruct (default (VDict ∅) (m !! "last_data")) as [ | | | | | l | | ];
    try (cbn; split; reflexivity).
  cbn. destruct (py_eq _ (VStr "0")); [|destruct (py_eq _ (VStr "1"))];
    cbn; split; reflexivity.
Qed.

Lemma change_state_identity (b : bool) (d : Device.t) (st : option bool)
    (w : World) :
  let d' := Relay.dev (fst (snd (Relay._change_state b
              ({| Relay.dev := d; Relay.state := st |}, w)))) in
  Device.guid d' = Device.guid d /\ Device.api d' = Device.api d.
Proof.
  unfold Relay._change_state, Relay.zoom, Device.api_makePUTRequest. run_M.
  change (Relay.set_dev d {| Relay.dev := d; Relay.state := st |})
    with {| Relay.dev := d; Relay.state := st |}.
  set (w1 := with_puts _ w).
  pose proof (while_frame b d st 10 false 0 None w1) as Hframe.
  cbv zeta in Hframe.
  destruct (Relay.while_ 10 b false 0 None
              ({| Relay.dev := d; Relay.state := st |}, w1))
    as [[ni|e] [r1 w2]]; cbn [fst snd] in Hframe |- *;
    destruct Hframe as (-> & _).
  - destruct ni as [info|]; [|cbn; split; reflexivity].
    cbn [fst snd Relay.dev].
    apply (relay_init_identity (Device.api d) (Device.guid d) info
             {| Relay.dev := d; Relay.state := st |} w2).
  - cbn. split; reflexivity.
Qed.

(** One public call: the identity (guid, api) is kept; events are fired
    only by a poll that is not silent and that the transport marks
    successful; only commands write to the transport, fetch the directory
    or change the logical state; only polls poll. *)
Lemma step_frame (o : Relay.op) (r : Relay.t) (w : World) :
  let s' := Relay.step o (r, w) in
  let d := Relay.dev r in
  let d' := Relay.dev (fst s') in
  let w' := snd s' in
  (Device.guid d' = Device.guid d /\ Device.api d' = Device.api d) /\
  ((fired w' = fired w /\ delivered w' = delivered w) \/
   (o = Relay.Heartbeat false /\ poll_succeeds d w)) /\
  ((puts w' = puts w /\ gets w' = gets w) \/
   o = Relay.TurnOn \/ o = Relay.TurnOff) /\
  (beats w' = beats w \/ exists silent, o = Relay.Heartbeat silent) /\
  (Relay.state (fst s') = Relay.state r \/
   o = Relay.TurnOn \/ o = Relay.TurnOff).
Proof.
  unfold Relay.step.
  destruct o as [silent|for_json|event cb|url| | | | | | ]; cbn [Relay.call].
  - rewrite zoom_self, zoom_world. cbn [Relay.set_dev Relay.dev].
    pose proof (heartbeat_frame Device.base silent (Relay.dev r) w) as H.
    cbv zeta in H.
    destruct H as ((Hg & Ha & _) & (Hb & Hgets & Hputs & _) & Hev).
    repeat split; auto.
    + destruct Hev as [Hsame|[-> Hs]];
        [left; exact Hsame | right; split; [reflexivity | exact Hs]].
    + right. exists silent. reflexivity.
  - unfold bind, get_self, lift, ret. cbn [fst snd].
    destruct (Device.asDict _ _); cbn [fst snd]; repeat split; auto.
  - rewrite zoom_self, zoom_world. cbn. repeat split; auto.
  - rewrite zoom_self, zoom_world. cbn. repeat split; auto.
  - rewrite zoom_self, zoom_world. cbn. repeat split; auto.
  - rewrite zoom_self, zoom_world. cbn. repeat split; auto.
  - unfold Relay.is_turned_on, Relay.unknown_state_check. run_M.
    destruct (Relay.state r) eqn:E; cbn; repeat split; auto.
  - unfold Relay.is_turned_off, Relay.unknown_state_check. run_M.
    destruct (Relay.state r) eqn:E; cbn; repeat split; auto.
  - destruct r as [d st]. unfold Relay.turn_on.
    pose proof (change_state_frame true d st w) as Hframe.
    pose proof (change_state_identity true d st w) as Hid.
    cbv zeta in Hframe, Hid.
    destruct Hframe as (_ & _ & _ & Hf & Hd & Hb & _).
    destruct Hid as [Hg Ha]. cbn [Relay.dev].
    split; [split; assumption|]. split; [left; split; assumption|].
    split; [right; left; reflexivity|].
    split; [left; assumption | right; left; reflexivity].
  - destruct r as [d st]. unfold Relay.turn_off.
    pose proof (change_state_frame false d st w) as Hframe.
    pose proof (change_state_identity false d st w) as Hid.
    cbv zeta in Hframe, Hid.
    destruct Hframe as (_ & _ & _ & Hf & Hd & Hb & _).
    destruct Hid as [Hg Ha]. cbn [Relay.dev].
    split; [split; assumption|]. split; [left; split; assumption|].
    split; [right; right; reflexivity|].
    split; [left; assumption | right; right; reflexivity].
Qed.

(** Consecutive states of a sequence are one call apart. *)
Lemma states_step (ops : list Relay.op) (s s1 s2 : Relay.t * World)
    (i : nat) (o : Relay.op) :
  ops !! i = Some o ->
  Relay.states ops s !! i = Some s1 ->
  Relay.states ops s !! S i = Some s2 ->
  s2 = Relay.step o s1.
Proof.
  revert s i. induction ops as [|o' ops IH]; intros s i Ho H1 H2.
  - discriminate Ho.
  - destruct i as [|i].
    + cbn in Ho, H1, H2. injection Ho as ->. injection H1 as <-.
      rewrite states_head in H2. injection H2 as <-. reflexivity.
    + cbn in Ho, H1, H2. exact (IH (Relay.step o' s) i Ho H1 H2).
Qed.

(** ** Along sequences of public calls *)

(** X6. The identity of a Relay never changes: in every state that a
    sequence of public calls goes through, polls, commands and raising
    calls included, guid and api are those of the start. *)
Theorem relay_identity_is_kept (ops : list Relay.op) (s : Relay.t * World) :
  Forall (fun s' =>
            Device.guid (Relay.dev (fst s')) = Device.guid (Relay.dev (fst s)) /\
            Device.api (Relay.dev (fst s')) = Device.api (Relay.dev (fst s)))
         (Relay.states ops s).
Proof.
  revert s. induction ops as [|o ops IH]; intros s.
  - cbn. repeat constructor.
  - cbn [Relay.states]. constructor; [split; reflexivity|].
    specialize (IH (Relay.step o s)).
    destruct s as [r w].
    destruct (step_frame o r w) as ((Hg & Ha) & _).
    cbn [fst] in *.
    eapply Forall_impl; [exact IH|].
    cbn beta. intros s' [Hg' Ha']. split; congruence.
Qed.

(** X7. Events are fired, and callbacks reached, only by a poll that is
    not silent and that the transport marks successful: no command,
    projection, subscription, webhook call or accessor fires anything. *)
Theorem events_only_from_polls
    (ops : list Relay.op) (s s1 s2 : Relay.t * World) (i : nat) (o : Relay.op) :
  ops !! i = Some o ->
  Relay.states ops s !! i = Some s1 ->
  Relay.states ops s !! S i = Some s2 ->
  fired (snd s2) <> fired (snd s1) \/ delivered (snd s2) <> delivered (snd s1) ->
  o = Relay.Heartbeat false /\ poll_succeeds (Relay.dev (fst s1)) (snd s1).
Proof.
  intros Ho H1 H2 Hne.
  rewrite (states_step ops s s1 s2 i o Ho H1 H2) in Hne.
  destruct s1 as [r w].
  destruct (step_frame o r w) as (_ & [[Hf Hd]|Hpoll] & _);
    [|exact Hpoll].
  cbn [snd fst] in *. destruct Hne as [Hne|Hne]; contradiction.
Qed.

(** The poll of the sample sequence fires HEARTBEAT and CHANGE. *)
Lemma events_only_from_polls_witness :
  Relay.Heartbeat false = Relay.Heartbeat false /\
  poll_succeeds (Relay.dev (fst Sample.subscribed)) (snd Sample.subscribed).
Proof.
  apply (events_only_from_polls
           [Relay.On Device.CHANGE 7%nat; Relay.Heartbeat false; Relay.TurnOn]
           (Sample.relay (VStr "0"), Sample.start)
           Sample.subscribed Sample.polled 1%nat (Relay.Heartbeat false)).
  - reflexivity.
  - vm_compute; reflexivity.
  - vm_compute; reflexivity.
  - left. vm_compute. discriminate.
Defined.

(** X8. Only [turn_on] and [turn_off] write to the transport or fetch the
    directory: a poll, a projection, a subscription, a webhook call or an
    accessor sends no PUT and no directory GET. *)
Theorem transport_written_only_by_commands
    (ops : list Relay.op) (s s1 s2 : Relay.t * World) (i : nat) (o : Relay.op) :
  ops !! i = Some o ->
  Relay.states ops s !! i = Some s1 ->
  Relay.states ops s !! S i = Some s2 ->
  puts (snd s2) <> puts (snd s1) \/ gets (snd s2) <> gets (snd s1) ->
  o = Relay.TurnOn \/ o = Relay.TurnOff.
Proof.
  intros Ho H1 H2 Hne.
  rewrite (states_step ops s s1 s2 i o Ho H1 H2) in Hne.
  destruct s1 as [r w].
  destruct (step_frame o r w) as (_ & _ & [[Hp Hg]|Hcmd] & _);
    [|exact Hcmd].
  cbn [snd fst] in *. destruct Hne as [Hne|Hne]; contradiction.
Qed.

(** The command of the sample sequence writes once and fetches. *)
Lemma transport_written_only_by_commands_witness :
  Relay.TurnOn = Relay.TurnOn \/ Relay.TurnOn = Relay.TurnOff.
Proof.
  apply (transport_written_only_by_commands
           [Relay.On Device.CHANGE 7%nat; Relay.Heartbeat false; Relay.TurnOn]
           (Sample.relay (VStr "0"), Sample.start)
           Sample.polled Sample.commanded 2%nat Relay.TurnOn).
  - reflexivity.
  - vm_compute; reflexivity.
  - vm_compute; reflexivity.
  - left. vm_compute. discriminate.
Defined.

(** X9. The logical state of a Relay changes only through [turn_on] and
    [turn_off]: a poll never updates it, whatever raw value it reads, so
    the accessors keep answering from the last construction or command. *)
Theorem relay_state_changed_only_by_commands
    (ops : list Relay.op) (s s1 s2 : Relay.t * World) (i : nat) (o : Relay.op) :
  ops !! i = Some o ->
  Relay.states ops s !! i = Some s1 ->
  Relay.states ops s !! S i = Some s2 ->
  Relay.state (fst s2) <> Relay.state (fst s1) ->
  o = Relay.TurnOn \/ o = Relay.TurnOff.
Proof.
  intros Ho H1 H2 Hne.
  rewrite (states_step ops s s1 s2 i o Ho H1 H2) in Hne.
  destruct s1 as [r w].
  destruct (step_frame o r w) as (_ & _ & _ & _ & [Hst|Hcmd]);
    [|exact Hcmd].
  cbn [snd fst] in *. contradiction.
Qed.

(** In the sample sequence the poll reads "1" and leaves the relay Off;
    the command then turns it On. *)
Lemma relay_state_changed_only_by_commands_witness :
  Relay.state (fst Sample.subscribed) = Some false /\
  Device.data (Relay.dev (fst Sample.polled)) = VStr "1" /\
  Relay.state (fst Sample.polled) = Some false /\
  Relay.state (fst Sample.commanded) = Some true /\
  (Relay.TurnOn = Relay.TurnOn \/ Relay.TurnOn = Relay.TurnOff).
Proof.
  split; [vm_compute; reflexivity|]. split; [vm_compute; reflexivity|].
  split; [vm_compute; reflexivity|]. split; [vm_compute; reflexivity|].
  apply (relay_state_changed_only_by_commands
           [Relay.On Device.CHANGE 7%nat; Relay.Heartbeat false; Relay.TurnOn]
           (Sample.relay (VStr "0"), Sample.start)
           Sample.polled Sample.commanded 2%nat Relay.TurnOn).
  - reflexivity.
  - vm_compute; reflexivity.
  - vm_compute; reflexivity.
  - vm_compute. discriminate.
Defined.

(** ** The accessors *)

(** X10. On any Relay, [is_turned_on] and [is_turned_off] either both
    raise the unknown-state Warning or return opposite booleans; neither
    changes the relay or the world. *)
Theorem relay_accessors_agree (r : Relay.t) (w : World) :
  (Relay.is_turned_on (r, w) =
     (Raise (Warning "Relay device is in an unknown state!"), (r, w)) /\
   Relay.is_turned_off (r, w) =
     (Raise (Warning "Relay device is in an unknown state!"), (r, w))) \/
  (exists b,
     Relay.is_turned_on (r, w) = (Ok b, (r, w)) /\
     Relay.is_turned_off (r, w) = (Ok (negb b), (r, w))).
Proof.
  destruct (Relay.state r) as [b|] eqn:Hst.
  - right. exists b. exact (relay_accessors_known r w b Hst).
  - left. exact (relay_accessors_unknown r w Hst).
Qed.

(** ** More on the relay's commands *)

Lemma while_O (b c : bool) (count : nat) (ni : option pyval) :
  Relay.while_ 0 b c count ni = ret ni.
Proof. reflexivity. Qed.

Lemma while_S (fuel : nat) (b c : bool) (count : nat) (ni : option pyval) :
  Relay.while_ (S fuel) b c count ni =
  if negb c && (count <? 10)%nat then
    let* self := get_self in
    let* reply :=
      Relay.zoom (Device.api_makeGETRequest
                    (DEVICES_URL (Device.api (Relay.dev self)))) in
    let* devices := lift (py_getitem reply "data") in
    let* info := lift (py_getitem devices (Device.guid (Relay.dev self))) in
    let* last := lift (py_getitem info "last_data") in
    let* raw := lift (py_getitem last "DA") in
    let* n := lift (py_int raw) in
    Relay.while_ fuel b (py_is_int n (Z.b2z b)) (S count) (Some info)
  else ret ni.
Proof. reflexivity. Qed.

(** What the loop hands back is either what it was given or a description
    it could read: a dict with a dict under 'last_data'. *)
Lemma while_hands_back_readable (b : bool) (d : Device.t) (st : option bool) :
  forall (fuel : nat) (c : bool) (count : nat) (ni : option pyval) (w : World)
         (info : pyval) (s' : Relay.t * World),
  Relay.while_ fuel b c count ni ({| Relay.dev := d; Relay.state := st |}, w)
    = (Ok (Some info), s') ->
  ni = Some info \/
  exists m l, info = VDict m /\ default (VDict ∅) (m !! "last_data") = VDict l.
Proof.
  assert (Hread : forall info last raw,
            py_getitem info "last_data" = Ok last ->
            py_getitem last "DA" = Ok raw ->
            exists m l, info = VDict m /\
                        default (VDict ∅) (m !! "last_data") = VDict l).
  { intros info last raw H1 H2.
    destruct info as [ | | | | | m | | ]; try discriminate.
    cbn in H1. destruct (m !! "last_data") as [x|] eqn:E; [|discriminate].
    injection H1 as ->.
    destruct last as [ | | | | | l | | ]; try discriminate.
    exists m, l. rewrite E. split; reflexivity. }
  induction fuel as [|fuel IH]; intros c count ni w info s'.
  - rewrite while_O. unfold ret.
    intros H. injection H as -> _. left. reflexivity.
  - rewrite while_S.
    destruct (negb c && (count <? 10)%nat);
      [|unfold ret; intros H; injection H as -> _; left; reflexivity].
    unfold Relay.zoom, Device.api_makeGETRequest. run_M.
    destruct (py_getitem _ "data") as [devices|]; [|discriminate].
    cbn. destruct (py_getitem devices (Device.guid d)) as [i0|];
      [|discriminate].
    cbn. destruct (py_getitem i0 "last_data") as [last|] eqn:E1;
      [|discriminate].
    cbn. destruct (py_getitem last "DA") as [raw|] eqn:E2; [|discriminate].
    cbn. destruct (py_int raw) as [n|]; [|discriminate].
    cbn.
    change (Relay.set_dev d {| Relay.dev := d; Relay.state := st |})
      with {| Relay.dev := d; Relay.state := st |}.
    intros H. apply IH in H. right.
    destruct H as [H|H]; [|exact H].
    injection H as <-. exact (Hread i0 last raw E1 E2).
Qed.

(** X11. A command that raises (a fetch it cannot read) leaves the Relay
    exactly as it was, state, data and subscriptions included; the write
    has been sent all the same, and nothing is fired. *)
Theorem command_failure_leaves_relay (b : bool) (r r' : Relay.t)
    (w w' : World) (e : exn) :
  (if b then Relay.turn_on else Relay.turn_off) (r, w) = (Raise e, (r', w')) ->
  r' = r /\
  puts w' = puts w ++
    [(getDeviceURL (Device.api (Relay.dev r)) (Device.guid (Relay.dev r)),
      command_payload b)] /\
  fired w' = fired w /\
  delivered w' = delivered w.
Proof.
  replace (if b then Relay.turn_on else Relay.turn_off)
    with (Relay._change_state b) by (destruct b; reflexivity).
  destruct r as [d st]. intros Hrun.
  pose proof (change_state_frame b d st w) as Hframe. cbv zeta in Hframe.
  rewrite Hrun in Hframe. cbn [fst snd Relay.dev] in Hframe.
  destruct Hframe as (_ & _ & Hputs & Hfired & Hdel & _).
  split; [|auto].
  revert Hrun.
  unfold Relay._change_state, Relay.zoom, Device.api_makePUTRequest. run_M.
  change (Relay.set_dev d {| Relay.dev := d; Relay.state := st |})
    with {| Relay.dev := d; Relay.state := st |}.
  set (w1 := with_puts _ w).
  pose proof (while_frame b d st 10 false 0 None w1) as Hwf.
  cbv zeta in Hwf.
  pose proof (while_hands_back_readable b d st 10 false 0 None w1) as Hrd.
  destruct (Relay.while_ 10 b false 0 None
              ({| Relay.dev := d; Relay.state := st |}, w1))
    as [[[info|]|e1] [r1 w2]]; cbn [fst snd] in Hwf |- *;
    destruct Hwf as (-> & _).
  - destruct (Hrd info _ eq_refl) as [Hni|(m & l & -> & Hl)];
      [discriminate|].
    cbn [fst snd Relay.dev].
    destruct (relay_init_dict (Device.api d) (Device.guid d) m l
                {| Relay.dev := d; Relay.state := st |} w2 Hl)
      as (d2 & _ & Hinit).
    rewrite Hinit. discriminate.
  - cbn. intros H. injection H as _ <- _. reflexivity.
  - intros H. injection H as _ <- _. reflexivity.
Qed.

(** On the misbehaving hub the first fetch shows the raw state "x". *)
Lemma command_failure_leaves_relay_witness :
  Relay.turn_on (Sample.odd_relay, Sample.start) =
    (Raise ValueError,
     (Sample.odd_relay,
      with_gets 1 (with_puts [("device/g1", command_payload true)] Sample.start)))
  /\ fst (snd (Relay.turn_on (Sample.odd_relay, Sample.start))) = Sample.odd_relay.
Proof.
  assert (Hrun : Relay.turn_on (Sample.odd_relay, Sample.start) =
            (Raise ValueError,
             (Sample.odd_relay,
              with_gets 1
                (with_puts [("device/g1", command_payload true)] Sample.start))))
    by (vm_compute; reflexivity).
  split; [exact Hrun|].
  destruct (command_failure_leaves_relay true Sample.odd_relay Sample.odd_relay
              Sample.start
              (with_gets 1
                 (with_puts [("device/g1", command_payload true)] Sample.start))
              ValueError Hrun) as (Hr & _).
  rewrite Hrun. reflexivity.
Defined.

(** X12. The state a command leaves is read off the raw value of the last
    fetch alone, by comparison with the strings "0" and "1": a fetch that
    confirms with any other spelling of the desired integer (the number 1,
    "01", " 1") leaves the Relay Unknown, and its accessors raise. *)
Theorem command_state_from_last_raw (b : bool) (r : Relay.t) (w : World)
    (k : nat) (m l : gmap string pyval) (raw : pyval) (v : Z) :
  let a := Device.api (Relay.dev r) in
  let g := Device.guid (Relay.dev r) in
  let unknown := Warning "Relay device is in an unknown state!" in
  (k < 10)%nat ->
  (forall j, (j < k)%nat ->
     exists v', reported a g (gets w + j) = Ok v' /\ v' <> Z.b2z b) ->
  fetched a g (gets w + k) = Ok (VDict m) ->
  m !! "last_data" = Some (VDict l) ->
  l !! "DA" = Some raw ->
  py_int raw = Ok v ->
  v = Z.b2z b \/ k = 9%nat ->
  exists r' w',
    (if b then Relay.turn_on else Relay.turn_off) (r, w) = (Ok tt, (r', w')) /\
    (raw = VStr "0" -> Relay.state r' = Some false) /\
    (raw = VStr "1" -> Relay.state r' = Some true) /\
    (raw <> VStr "0" -> raw <> VStr "1" ->
       Relay.state r' = None /\
       Relay.is_turned_on (r', w') = (Raise unknown, (r', w')) /\
       Relay.is_turned_off (r', w') = (Raise unknown, (r', w'))).
Proof.
  intros a g unknown Hk Hbefore Hf Hld Hda Hint Hlast.
  destruct r as [d st]. cbn [Relay.dev] in a, g. subst a g.
  assert (Hrep : reported (Device.api d) (Device.guid d) (gets w + k) = Ok v).
  { unfold reported. rewrite Hf. cbn. rewrite Hld. cbn. rewrite Hda. exact Hint. }
  destruct (change_state_run b d st w k (VDict m) v Hk Hbefore Hf Hrep Hlast)
    as (r' & Hnew & Hrun).
  replace (if b then Relay.turn_on else Relay.turn_off)
    with (Relay._change_state b) by (destruct b; reflexivity).
  exists r'. eexists. split; [exact Hrun|].
  assert (Hl : default (VDict ∅) (m !! "last_data") = VDict l)
    by now rewrite Hld.
  destruct (relay_init_dict (Device.api d) (Device.guid d) m l
              (Relay.bare (Device.api d) (Device.guid d)) w Hl) as (d2 & _ & Hinit).
  cbv zeta in Hinit.
  unfold Relay.new in Hnew. rewrite Hinit in Hnew. cbn [fst] in Hnew.
  rewrite Hda in Hnew. cbn [default from_option id] in Hnew.
  injection Hnew as <-. cbn [Relay.state].
  split; [intros ->; reflexivity|]. split; [intros ->; reflexivity|].
  intros H0 H1.
  assert (Hst : (if py_eq raw (VStr "0") then Some false
                 else if py_eq raw (VStr "1") then Some true else None)
                = @None bool).
  { destruct (py_eq raw (VStr "0")) eqn:E0;
      [apply py_eq_str in E0; contradiction|].
    destruct (py_eq raw (VStr "1")) eqn:E1;
      [apply py_eq_str in E1; contradiction|]. reflexivity. }
  rewrite Hst. split; [reflexivity|].
  apply relay_accessors_unknown. reflexivity.
Qed.

(** On the misbehaving hub the directory shows the number 1 from the
    second fetch on: [turn_on] is confirmed at once and the relay is
    Unknown. *)
Lemma command_state_from_last_raw_witness :
  exists r' w',
    Relay.turn_on (Sample.odd_relay, with_gets 1 Sample.start)
      = (Ok tt, (r', w')) /\
    Relay.state r' = None /\
    fst (Relay.is_turned_on (r', w')) =
      Raise (Warning "Relay device is in an unknown state!").
Proof.
  destruct (command_state_from_last_raw true Sample.odd_relay
              (with_gets 1 Sample.start) 0%nat
              (Sample.description_fields (VInt 1)) {[ "DA" := VInt 1 ]}
              (VInt 1) 1)
    as (r' & w' & Hrun & _ & _ & Hunknown).
  - lia.
  - intros j Hj. lia.
  - vm_compute; reflexivity.
  - vm_compute; reflexivity.
  - vm_compute; reflexivity.
  - reflexivity.
  - left; reflexivity.
  - exists r', w'. split; [exact Hrun|].
    destruct Hunknown as (Hst & Hon & _); [discriminate | discriminate |].
    split; [exact Hst|]. rewrite Hon. reflexivity.
Defined.

(** ** More on construction *)

(** Python's [== 1] holds for the int 1, for [True], which is the int 1,
    and for a float whose value is 1; 1.0 is one. *)
Lemma py_eq_one (v : pyval) :
  py_eq v (VInt 1) = true <->
  v = VInt 1 \/ v = VBool true \/
  exists f, v = VFloat f /\ float_eq_Z f 1 = true.
Proof.
  destruct v as [ | b | z | | | | | f ];
    try (split; [intros H; vm_compute in H; discriminate H
                | intros [H|[H|(g & H & _)]]; discriminate H]).
  - destruct b; split; auto; try (intros H; vm_compute in H; discriminate H).
    intros [H|[H|(g & H & _)]]; discriminate H.
  - change (py_eq (VInt z) (VInt 1)) with (z =? 1).
    rewrite Z.eqb_eq.
    split; [intros ->; auto | intros [H|[H|(g & H & _)]]; congruence].
  - change (py_eq (VFloat f) (VInt 1)) with (float_eq_Z f 1).
    split; [eauto|].
    intros [H|[H|(g & H & Hg)]]; try discriminate H.
    injection H as ->. exact Hg.
Qed.

(** X13. [Device(api, guid, info)] is built from every dict and only from
    a dict; [Relay(api, guid, info)] needs in addition that last_data (the
    empty dict when the key is missing) is a dict.  In every other case
    the constructor raises AttributeError. *)
Theorem constructors_outcome (a : Api) (g : string) (info : pyval) (w : World) :
  match info with
  | VDict m =>
      (exists d, Device.new a g info w = Ok d) /\
      match default (VDict ∅) (m !! "last_data") with
      | VDict l => exists r, Relay.new a g info w = Ok r
      | _ => Relay.new a g info w = Raise (AttributeError "get")
      end
  | _ =>
      Device.new a g info w = Raise (AttributeError "get") /\
      Relay.new a g info w = Raise (AttributeError "get")
  end.
Proof.
  destruct info as [ | | | | | m | | ]; try (split; reflexivity).
  split.
  - unfold Device.new. rewrite device_init_dict. eauto.
  - unfold Relay.new, Relay.__init__, Relay.zoom, bind. cbn [fst snd].
    rewrite device_init_dict. run_M.
    destruct (default (VDict ∅) (m !! "last_data")) as [ | | | | | l | | ];
      try reflexivity.
    cbn. destruct (py_eq _ (VStr "0")); [|destruct (py_eq _ (VStr "1"))];
      cbn; eauto.
Qed.

(** X14. A new Device holds no reading (data, last_heartbeat and last_read
    are None) and no subscription; is_sensor and is_actuator are True
    exactly when the description gives a value that [== 1] under the key:
    the int 1, True or a float whose value is 1, such as 1.0.  A missing
    key, 0, 0.5, NaN or the string "1" all give False; a missing
    device_type, shortName or last_data gives None, None and the empty
    dict. *)
Theorem device_new_fields (a : Api) (g : string) (m : gmap string pyval)
    (w : World) :
  exists d,
    Device.new a g (VDict m) w = Ok d /\
    Device.guid d = g /\ Device.api d = a /\
    Device.data d = VNone /\ Device.last_heartbeat d = None /\
    Device.last_read d = None /\ Device._callbacks d = ∅ /\
    (Device.is_sensor d = true <->
       m !! "is_sensor" = Some (VInt 1) \/ m !! "is_sensor" = Some (VBool true) \/
       exists f, m !! "is_sensor" = Some (VFloat f) /\ float_eq_Z f 1 = true) /\
    (Device.is_actuator d = true <->
       m !! "is_actuator" = Some (VInt 1) \/
       m !! "is_actuator" = Some (VBool true) \/
       exists f, m !! "is_actuator" = Some (VFloat f) /\ float_eq_Z f 1 = true) /\
    (float_eq_Z (float_of_Z 1) 1 = true /\
     float_eq_Z (SFdiv prec emax (float_of_Z 1) (float_of_Z 2)) 1 = false /\
     float_eq_Z (float_of_Z 0) 1 = false /\
     float_eq_Z S754_nan 1 = false) /\
    Device.type d = default VNone (m !! "device_type") /\
    Device.name d = default VNone (m !! "shortName") /\
    Device.last_data d = default (VDict ∅) (m !! "last_data").
Proof.
  assert (Hflag : forall o : option pyval,
            py_eq (default VNone o) (VInt 1) = true <->
            o = Some (VInt 1) \/ o = Some (VBool true) \/
            exists f, o = Some (VFloat f) /\ float_eq_Z f 1 = true).
  { intros [v|]; cbn [default from_option id].
    - rewrite py_eq_one. split.
      + intros [H|[H|(f & H & Hf)]]; [left|right; left|right; right];
          try congruence. exists f. split; [congruence | exact Hf].
      + intros [H|[H|(f & H & Hf)]]; [left|right; left|right; right];
          try congruence. exists f. split; [congruence | exact Hf].
    - split; [intros H; vm_compute in H; discriminate H
             | intros [H|[H|(f & H & _)]]; discriminate H]. }
  unfold Device.new. rewrite device_init_dict. cbn [fst].
  eexists. split; [reflexivity|]. cbn.
  repeat split; try reflexivity; try apply Hflag.
Qed.

(** ** Button *)

(** X15. After a poll that the transport marks successful, a Button is
    pushed exactly when the raw value read [== 0]: the int 0, False or a
    float zero (0.0 or -0.0); the string "0" does not count. *)
Theorem button_pushed_after_poll (self : Device.t) (w : World)
    (id payload raw : pyval) (stamp : datetime) (silent : bool) :
  py_getitem (poll_reply self w) "id" = Ok id ->
  py_eq id (VInt 0) = true ->
  py_getitem (poll_reply self w) "data" = Ok payload ->
  py_getitem payload "DA" = Ok raw ->
  hub_stamp payload = Ok stamp ->
  exists self' w',
    Device.heartbeat (variant := Device.base) silent (self, w) =
      (Ok (Some stamp, raw), (self', w')) /\
    (Button.isPushed self' = true <->
       raw = VInt 0 \/ raw = VBool false \/
       exists s, raw = VFloat (S754_zero s)) /\
    (raw = VFloat (float_of_Z 0) -> Button.isPushed self' = true) /\
    (raw = VStr "0" -> Button.isPushed self' = false).
Proof.
  intros Hid Hz Hp Hraw Hstamp.
  destruct (hub_stamp_ok payload stamp Hstamp) as (last & secs & Hts & Hdiv & Hs).
  pose proof (heartbeat_success Device.base self w id payload raw raw last
                secs stamp Hid Hz Hp Hraw eq_refl Hts Hdiv Hs silent) as Hrun.
  cbv zeta in Hrun.
  eexists _, _. split; [exact Hrun|].
  unfold Button.isPushed. cbn [Device.data Device.set_last_read Device.set_data].
  split; [apply py_eq_zero|]. split; intros ->; reflexivity.
Qed.

(** The third reply of the misbehaving hub reads the number 0. *)
Lemma button_pushed_after_poll_witness :
  exists self' w',
    Device.heartbeat (variant := Device.base) false
      (Sample.odd_device, with_beats 2 Sample.start) =
      (Ok (Some (mkDatetime 2013 3 1 0 0 0 0), VInt 0), (self', w')) /\
    (Button.isPushed self' = true <->
       VInt 0 = VInt 0 \/ VInt 0 = VBool false \/
       exists s, VInt 0 = VFloat (S754_zero s)) /\
    (VInt 0 = VFloat (float_of_Z 0) -> Button.isPushed self' = true) /\
    (VInt 0 = VStr "0" -> Button.isPushed self' = false).
Proof.
  apply (button_pushed_after_poll Sample.odd_device
           (with_beats 2 Sample.start) (VInt 0)
           (VDict {[ "DA" := VInt 0; "timestamp" := VInt 1362096000999 ]})
           (VInt 0) (mkDatetime 2013 3 1 0 0 0 0) false);
    vm_compute; reflexivity.
Defined.

(** ** RGBLED *)

(** X16. [setColor] keeps the last color, or replaces it by white when it
    is false, and then sends one write {'DA': hex} to the device's URL;
    when the color cannot be built the exception leaves no write behind,
    but the replacement by white has already taken place. *)
Theorem rgbled_setColor_outcome
    (Color_hex : list pyval -> result pyval) (WHITE : pyval)
    (truth : pyval -> bool) (args : list pyval) (r : RGBLED.t) (w : World) :
  let kept := if truth (RGBLED._last_color r)
              then RGBLED._last_color r else WHITE in
  let r' := {| RGBLED.dev := RGBLED.dev r; RGBLED._last_color := kept |} in
  let url := getDeviceURL (Device.api (RGBLED.dev r))
               (Device.guid (RGBLED.dev r)) in
  RGBLED.setColor Color_hex WHITE truth args (r, w) =
    match Color_hex args with
    | Ok hex =>
        (Ok tt, (r', with_puts (puts w ++ [(url, VDict {[ "DA" := hex ]})]) w))
    | Raise e => (Raise e, (r', w))
    end.
Proof.
  destruct r as [d c].
  unfold RGBLED.setColor, RGBLED.zoom, Device.api_makePUTRequest. run_M.
  destruct (truth c); cbn; destruct (Color_hex args); reflexivity.
Qed.

(** X17. [turnOff] followed by [turnOn] sends black and then the color
    that [turnOff] remembered, which is the data held at that moment (not
    the color set last), or white when that data is false, as it is for a
    device never polled. *)
Theorem rgbled_off_then_on
    (Color_hex : list pyval -> result pyval) (BLACK WHITE : pyval)
    (truth : pyval -> bool) (r : RGBLED.t) (w : World) (off on : pyval) :
  let data := Device.data (RGBLED.dev r) in
  let back := if truth data then data else WHITE in
  let url := getDeviceURL (Device.api (RGBLED.dev r))
               (Device.guid (RGBLED.dev r)) in
  Color_hex [BLACK] = Ok off ->
  Color_hex [back] = Ok on ->
  (RGBLED.turnOff Color_hex BLACK WHITE truth ;;
   RGBLED.turnOn Color_hex WHITE truth) (r, w) =
    (Ok tt,
     ({| RGBLED.dev := RGBLED.dev r; RGBLED._last_color := back |},
      with_puts (puts w ++ [(url, VDict {[ "DA" := off ]});
                            (url, VDict {[ "DA" := on ]})]) w)).
Proof.
  intros data back url Hoff Hon. destruct r as [d c].
  cbn [RGBLED.dev] in data, back, url. subst data back url.
  unfold RGBLED.turnOff, RGBLED.turnOn, RGBLED.setColor, RGBLED.zoom,
    Device.api_makePUTRequest. run_M.
  destruct (truth (Device.data d)) eqn:Ht; cbn; rewrite Hoff; cbn.
  - rewrite Ht. cbn. rewrite Hon. cbn. unfold with_puts. cbn.
    rewrite <- app_assoc. reflexivity.
  - destruct (truth WHITE); cbn; rewrite Hon; cbn; unfold with_puts; cbn;
      rewrite <- app_assoc; reflexivity.
Qed.

(** The sample RGBLED was never polled: its data is None. *)
Lemma rgbled_off_then_on_witness :
  let out :=
    (RGBLED.turnOff Sample.color_hex Sample.BLACK Sample.WHITE Sample.truth ;;
     RGBLED.turnOn Sample.color_hex Sample.WHITE Sample.truth)
      (Sample.led, Sample.start) in
  fst out = Ok tt /\
  RGBLED._last_color (fst (snd out)) = Sample.WHITE /\
  puts (snd (snd out)) =
    [("device/g1", VDict {[ "DA" := VStr "000000" ]});
     ("device/g1", VDict {[ "DA" := VStr "FFFFFF" ]})].
Proof.
  cbv zeta.
  rewrite (rgbled_off_then_on Sample.color_hex Sample.BLACK Sample.WHITE
             Sample.truth Sample.led Sample.start
             (VStr "000000") (VStr "FFFFFF")).
  - split; [reflexivity|]. split; vm_compute; reflexivity.
  - reflexivity.
  - vm_compute; reflexivity.
Defined.

(** ** The polling loop *)

Lemma pulse_S (V : Device.Variant) (rounds period : nat) :
  Device.pulse (S rounds) period =
  (Device.heartbeat false ;; Device.time_sleep period ;;
   Device.pulse rounds period).
Proof. reflexivity. Qed.

(** One refused poll, as a run. *)
Lemma heartbeat_refused (V : Device.Variant) (self : Device.t) (w : World)
    (id : pyval) (silent : bool) :
  py_getitem (poll_reply self w) "id" = Ok id ->
  py_eq id (VInt 0) = false ->
  Device.heartbeat silent (self, w) =
    (Ok (Device.last_read self, Device.data self),
     (self, with_beats (S (beats w)) w)).
Proof.
  intros Hid Hz. unfold poll_reply in *.
  unfold Device.heartbeat, Device.api_getDeviceHeartbeat.
  run_M. rewrite Hid. cbn. rewrite Hz. reflexivity.
Qed.

Lemma refused_shift (self : Device.t) (w : World) (j : nat) :
  refused self w (S j) -> refused self (with_beats (S (beats w)) w) j.
Proof.
  unfold refused. cbn [beats with_beats].
  replace (S (beats w) + j)%nat with (beats w + S j)%nat by lia. auto.
Qed.

(** X18. A hub that refuses every poll does not stop [pulse]: after any
    number of rounds the loop is still running, it has polled once per
    round, the instance is untouched and no event has been fired. *)
Theorem pulse_refused_keeps_running (V : Device.Variant) (self : Device.t)
    (period : nat) :
  forall (rounds : nat) (w : World),
  (forall j, (j < rounds)%nat -> refused self w j) ->
  exists w',
    Device.pulse rounds period (self, w) = (Ok tt, (self, w')) /\
    beats w' = (beats w + rounds)%nat /\
    ticks w' = ticks w /\ gets w' = gets w /\ puts w' = puts w /\
    fired w' = fired w /\ delivered w' = delivered w.
Proof.
  induction rounds as [|rounds IH]; intros w Hall.
  - exists w. cbn. repeat split; lia.
  - destruct (Hall 0%nat ltac:(lia)) as (id & Hid & Hz).
    rewrite Nat.add_0_r in Hid.
    destruct (IH (with_beats (S (beats w)) w)) as (w' & Hrun & Hb & Hrest).
    { intros j Hj. apply refused_shift. apply Hall. lia. }
    exists w'. split.
    + rewrite pulse_S. unfold bind at 1.
      rewrite (heartbeat_refused V self w id false Hid Hz).
      unfold bind, Device.time_sleep, ret. exact Hrun.
    + cbn [beats with_beats] in Hb. split; [lia|]. exact Hrest.
Qed.

(** The third poll of the sample hub is refused. *)
Lemma pulse_refused_keeps_running_witness :
  exists w',
    Device.pulse (variant := Device.base) 1 10
      (Sample.device, with_beats 2 Sample.start) = (Ok tt, (Sample.device, w')) /\
    beats w' = 3%nat /\
    ticks w' = 0%nat /\ gets w' = 0%nat /\ puts w' = [] /\
    fired w' = [] /\ delivered w' = [].
Proof.
  apply (pulse_refused_keeps_running Device.base Sample.device 10 1
           (with_beats 2 Sample.start)).
  intros j Hj. assert (j = 0%nat) as -> by lia.
  exists (VInt 404). split; vm_compute; reflexivity.
Defined.

(** X19. One reply without a readable status ends [pulse]: if the polls
    before it were refused, the loop raises at that poll, however many
    rounds were still to come, with the instance untouched. *)
Theorem pulse_ended_by_unreadable_reply (V : Device.Variant) (self : Device.t)
    (period : nat) (e : exn) :
  forall (k rounds : nat) (w : World),
  (k < rounds)%nat ->
  (forall j, (j < k)%nat -> refused self w j) ->
  py_getitem (getDeviceHeartbeat (Device.api self) (Device.guid self)
                (beats w + k)) "id" = Raise e ->
  exists w',
    Device.pulse rounds period (self, w) = (Raise e, (self, w')) /\
    beats w' = (beats w + k + 1)%nat /\
    fired w' = fired w /\ delivered w' = delivered w.
Proof.
  induction k as [|k IH]; intros rounds w Hk Hbefore Hbad.
  - destruct rounds as [|rounds]; [lia|].
    rewrite Nat.add_0_r in Hbad.
    exists (with_beats (S (beats w)) w). split.
    + rewrite pulse_S. unfold bind at 1.
      unfold Device.heartbeat, Device.api_getDeviceHeartbeat. run_M.
      rewrite Hbad. reflexivity.
    + cbn. repeat split; lia.
  - destruct rounds as [|rounds]; [lia|].
    destruct (Hbefore 0%nat ltac:(lia)) as (id & Hid & Hz).
    rewrite Nat.add_0_r in Hid.
    destruct (IH rounds (with_beats (S (beats w)) w)) as (w' & Hrun & Hb & Hrest).
    { lia. }
    { intros j Hj. apply refused_shift. apply Hbefore. lia. }
    { cbn [beats with_beats].
      replace (S (beats w) + k)%nat with (beats w + S k)%nat by lia.
      exact Hbad. }
    exists w'. split.
    + rewrite pulse_S. unfold bind at 1.
      rewrite (heartbeat_refused V self w id false Hid Hz).
      unfold bind, Device.time_sleep, ret. exact Hrun.
    + cbn [beats with_beats] in Hb. split; [lia|]. exact Hrest.
Qed.

(** The first reply of the misbehaving hub is None. *)
Lemma pulse_ended_by_unreadable_reply_witness :
  exists w',
    Device.pulse (variant := Device.base) 3 10
      (Sample.odd_device, Sample.start) =
      (Raise TypeError, (Sample.odd_device, w')) /\
    beats w' = 1%nat /\
    fired w' = [] /\ delivered w' = [].
Proof.
  apply (pulse_ended_by_unreadable_reply Device.base Sample.odd_device 10
           TypeError 0 3 Sample.start).
  - lia.
  - intros j Hj. lia.
  - vm_compute; reflexivity.
Defined.
